(** * Phishing e-mail detector: the scoring engine of [src/main.py] and
    [src/web.py], embedded and verified.

    Python strings are modelled as [string]: a character is a code point
    below 256 (ASCII and Latin-1), which [str.lower], [str.strip] and
    [urllib.parse] map to code points below 256 again.  Code that can raise
    returns an [outcome]; the record handed to [score_email] is a shared
    dictionary threaded through the [Py] monad. *)

From stdpp Require Import base option list gmap strings.
From Stdlib Require Import ZArith Lia Ascii String Sorted Permutation.

Local Open Scope string_scope.
Local Open Scope Z_scope.

(** ** Exceptions *)

Inductive exn := IndexError | ValueError.

Inductive outcome (A : Type) : Type :=
| Return (a : A)
| Raise (e : exn).
Arguments Return {A} a.
Arguments Raise {A} e.

Definition obind {A B} (c : outcome A) (k : A -> outcome B) : outcome B :=
  match c with
  | Return a => k a
  | Raise e => Raise e
  end.

(** [try: c  except Exception: h] *)
Definition try_except {A} (c : outcome A) (h : outcome A) : outcome A :=
  match c with
  | Return a => Return a
  | Raise _ => h
  end.

#[export] Instance outcome_ret : MRet outcome := fun _ a => Return a.
#[export] Instance outcome_bind : MBind outcome := fun _ _ k c => obind c k.

(** ** Python string built-ins *)

Module PyStr.

Definition code (c : ascii) : nat := nat_of_ascii c.

Definition between (lo hi n : nat) : bool := (lo <=? n)%nat && (n <=? hi)%nat.

(** [str.lower] on one character: A-Z, and the Latin-1 capitals
    U+00C0..U+00DE without the multiplication sign U+00D7. *)
Definition lower_char (c : ascii) : ascii :=
  let n := code c in
  if between 65 90 n || (between 192 222 n && negb (n =? 215)%nat)
  then ascii_of_nat (n + 32) else c.

Fixpoint lower (s : string) : string :=
  match s with
  | EmptyString => EmptyString
  | String c s' => String (lower_char c) (lower s')
  end.

(** [str.isspace] on one character. *)
Definition is_space (c : ascii) : bool :=
  let n := code c in
  between 9 13 n || between 28 32 n || (n =? 133)%nat || (n =? 160)%nat.

Fixpoint lstrip_with (p : ascii -> bool) (s : string) : string :=
  match s with
  | EmptyString => EmptyString
  | String c s' => if p c then lstrip_with p s' else s
  end.

Fixpoint rstrip_with (p : ascii -> bool) (s : string) : string :=
  match s with
  | EmptyString => EmptyString
  | String c s' =>
      match rstrip_with p s' with
      | EmptyString => if p c then EmptyString else String c EmptyString
      | r => String c r
      end
  end.

(** [s.strip()] *)
Definition strip (s : string) : string := rstrip_with is_space (lstrip_with is_space s).

(** [s.startswith(p)] *)
Fixpoint startswith (p s : string) : bool :=
  match p, s with
  | EmptyString, _ => true
  | String _ _, EmptyString => false
  | String a p', String b s' => Ascii.eqb a b && startswith p' s'
  end.

(** [sub in s] *)
Fixpoint contains (sub s : string) : bool :=
  startswith sub s ||
  match s with
  | EmptyString => false
  | String _ s' => contains sub s'
  end.

(** [bool(s)] *)
Definition truthy (s : string) : bool := negb (String.eqb s "").

(** [s.partition(sep)] for a one-character separator: the text before the
    first [sep], whether [sep] was found, and the text after it. *)
Fixpoint partition (sep : ascii) (s : string) : string * bool * string :=
  match s with
  | EmptyString => (EmptyString, false, EmptyString)
  | String c s' =>
      if Ascii.eqb c sep then (EmptyString, true, s')
      else let '(a, found, b) := partition sep s' in (String c a, found, b)
  end.

(** [s.split(sep, 1)] *)
Definition split1 (sep : ascii) (s : string) : list string :=
  let '(a, found, b) := partition sep s in
  if found then [a; b] else [a].

(** [s.split(sep)] *)
Fixpoint split (sep : ascii) (s : string) : list string :=
  match s with
  | EmptyString => [EmptyString]
  | String c s' =>
      if Ascii.eqb c sep then EmptyString :: split sep s'
      else match split sep s' with
           | [] => [String c EmptyString]
           | w :: ws => String c w :: ws
           end
  end.

(** [l[i]] for [i >= 0] *)
Definition index {A} (l : list A) (i : nat) : outcome A :=
  match nth_error l i with
  | Some x => Return x
  | None => Raise IndexError
  end.

(** [l[-1]] *)
Definition index_last {A} (l : list A) : outcome A :=
  match last l with
  | Some x => Return x
  | None => Raise IndexError
  end.

(** [s.replace(c, "")] for a one-character [c] *)
Fixpoint remove_char (c : ascii) (s : string) : string :=
  match s with
  | EmptyString => EmptyString
  | String a s' => if Ascii.eqb a c then remove_char c s' else String a (remove_char c s')
  end.

(** [all(p(c) for c in s)] *)
Fixpoint all_chars (p : ascii -> bool) (s : string) : bool :=
  match s with
  | EmptyString => true
  | String c s' => p c && all_chars p s'
  end.

(** [c in s] for one character *)
Definition has_char (c : ascii) (s : string) : bool := negb (all_chars (fun a => negb (Ascii.eqb a c)) s).

End PyStr.

(** ** [urllib.parse.urlparse(url).netloc]

    After CPython 3.11's [urlsplit], for text input.  [Raise ValueError] is
    the only failure [urlsplit] has on a string. *)

Module Urllib.
Import PyStr.

Definition is_ascii_alpha (c : ascii) : bool := between 65 90 (code c) || between 97 122 (code c).
Definition is_ascii_digit (c : ascii) : bool := between 48 57 (code c).
Definition is_hex_digit (c : ascii) : bool :=
  is_ascii_digit c || between 65 70 (code c) || between 97 102 (code c).

(** [c in scheme_chars] *)
Definition is_scheme_char (c : ascii) : bool :=
  is_ascii_alpha c || is_ascii_digit c || Ascii.eqb c "+" || Ascii.eqb c "-" || Ascii.eqb c ".".

(** [c in _WHATWG_C0_CONTROL_OR_SPACE] *)
Definition is_c0_control_or_space (c : ascii) : bool := (code c <=? 32)%nat.

(** [for b in _UNSAFE_URL_BYTES_TO_REMOVE: url = url.replace(b, "")] *)
Definition remove_unsafe_bytes (url : string) : string :=
  remove_char "010" (remove_char "013" (remove_char "009" url)).

(** The scheme test of [urlsplit]: with [i = url.find(':')], when [i > 0],
    [url[0]] is an ASCII letter and every character of [url[:i]] is a scheme
    character, the rest is [url[i+1:]]; otherwise [url] is kept. *)
Definition drop_scheme (url : string) : string :=
  let '(pre, found, post) := partition ":" url in
  match pre with
  | String c _ =>
      if found && is_ascii_alpha c && all_chars is_scheme_char pre then post else url
  | EmptyString => url
  end.

Fixpoint take_until (p : ascii -> bool) (s : string) : string :=
  match s with
  | EmptyString => EmptyString
  | String c s' => if p c then EmptyString else String c (take_until p s')
  end.

Fixpoint drop_until (p : ascii -> bool) (s : string) : string :=
  match s with
  | EmptyString => EmptyString
  | String c s' => if p c then s else drop_until p s'
  end.

Definition is_netloc_delim (c : ascii) : bool :=
  Ascii.eqb c "/" || Ascii.eqb c "?" || Ascii.eqb c "#".

(** [_splitnetloc(url, 2)[0]] where [rest = url[2:]]: the text up to the
    first of [/], [?] and [#]. *)
Definition splitnetloc (rest : string) : string := take_until is_netloc_delim rest.

(** [s.rpartition(sep)[2]]: the text after the last [sep], all of [s] when
    there is none. *)
Fixpoint rpartition_tail (sep : ascii) (s : string) : string :=
  match s with
  | EmptyString => EmptyString
  | String c s' =>
      if has_char sep s' then rpartition_tail sep s'
      else if Ascii.eqb c sep then s' else s
  end.

(** *** [ipaddress]: which strings parse as an address *)

Definition digit_value (c : ascii) : N := (N_of_ascii c - 48)%N.

(** [int(s, 10)] for a string of ASCII digits *)
Fixpoint decimal_value (acc : N) (s : string) : N :=
  match s with
  | EmptyString => acc
  | String c s' => decimal_value (10 * acc + digit_value c)%N s'
  end.

(** [IPv4Address._parse_octet] returns (does not raise). *)
Definition octet_ok (o : string) : bool :=
  if negb (truthy o) then false
  else if negb (all_chars is_ascii_digit o) then false
  else if (3 <? String.length o)%nat then false
  else if negb (String.eqb o "0") && startswith "0" o then false
  else if (255 <? decimal_value 0 o)%N then false
  else true.

(** [IPv4Address(s)] returns. *)
Definition ipv4_ok (s : string) : bool :=
  negb (has_char "/" s)
  && truthy s
  && (let octets := split "." s in
      (List.length octets =? 4)%nat && forallb octet_ok octets).

(** [IPv6Address._parse_hextet] returns: hexadecimal digits only, at most
    four, and [int(h, 16)] refuses the empty string. *)
Definition hextet_ok (h : string) : bool :=
  all_chars is_hex_digit h && (String.length h <=? 4)%nat && truthy h.

(** The positions [1 .. len(parts) - 2] holding an empty part. *)
Definition inner_empty_positions (parts : list string) : list nat :=
  List.filter (fun i => negb (truthy (nth i parts "x")))
              (seq 1 (List.length parts - 2)).

(** [IPv6Address._ip_int_from_string] returns.  Its integer is not used by
    [urlsplit], so only the checks are kept; the two hextets written for an
    IPv4 suffix with ['%x'] are non-empty and of at most four hexadecimal
    digits, and stand here as ["0"]. *)
Definition ipv6_parts_ok (ip_str : string) : bool :=
  truthy ip_str &&
  let parts := split ":" ip_str in
  (3 <=? List.length parts)%nat &&
  let last_part := List.last parts "" in
  (if has_char "." last_part then ipv4_ok last_part else true) &&
  let parts := if has_char "." last_part then (removelast parts ++ ["0"; "0"])%list else parts in
  let n := List.length parts in
  (n <=? 9)%nat &&
  match inner_empty_positions parts with
  | [] =>
      (n =? 8)%nat && truthy (nth 0 parts "") && truthy (List.last parts "")
      && forallb hextet_ok parts
  | [skip_index] =>
      let first_empty := negb (truthy (nth 0 parts "")) in
      let last_empty := negb (truthy (List.last parts "")) in
      let parts_hi := if first_empty then (skip_index - 1)%nat else skip_index in
      let parts_lo := if last_empty then (n - skip_index - 1 - 1)%nat else (n - skip_index - 1)%nat in
      negb (first_empty && negb (parts_hi =? 0)%nat)
      && negb (last_empty && negb (parts_lo =? 0)%nat)
      && (parts_hi + parts_lo <=? 7)%nat
      && forallb hextet_ok (firstn parts_hi parts)
      && forallb hextet_ok (skipn (n - parts_lo) parts)
  | _ => false
  end.

(** [IPv6Address(s)] returns: no [/], a scope id after [%] that is not empty
    and holds no further [%], and an address that parses. *)
Definition ipv6_ok (s : string) : bool :=
  negb (has_char "/" s) &&
  let '(addr, sep, scope_id) := partition "%" s in
  negb (sep && (negb (truthy scope_id) || has_char "%" scope_id))
  && ipv6_parts_ok addr.

(** [re.match(r"\Av[a-fA-F0-9]+\..+\Z", hostname)] for a [hostname] that
    starts with [v]; [rest] is [hostname[1:]]. *)
Definition ipvfuture_ok (rest : string) : bool :=
  let digits := take_until (fun c => negb (is_hex_digit c)) rest in
  truthy digits &&
  match drop_until (fun c => negb (is_hex_digit c)) rest with
  | String "." tail => truthy tail && negb (has_char "010" tail)
  | _ => false
  end.

(** [_check_bracketed_host] *)
Definition check_bracketed_host (hostname : string) : outcome unit :=
  match hostname with
  | String "v" rest => if ipvfuture_ok rest then Return tt else Raise ValueError
  | _ =>
      if ipv4_ok hostname then Raise ValueError
      else if ipv6_ok hostname then Return tt
      else Raise ValueError
  end.

(** [_check_bracketed_netloc] *)
Definition check_bracketed_netloc (netloc : string) : outcome unit :=
  let hostname_and_port := rpartition_tail "@" netloc in
  let '(before_bracket, have_open_br, bracketed) := partition "[" hostname_and_port in
  if have_open_br then
    if truthy before_bracket then Raise ValueError
    else
      let '(hostname, _, port) := partition "]" bracketed in
      if truthy port && negb (startswith ":" port) then Raise ValueError
      else check_bracketed_host hostname
  else
    let '(hostname, _, _) := partition ":" hostname_and_port in
    check_bracketed_host hostname.

(** [_checknetloc]: for a netloc with a character outside ASCII it raises
    when NFKC normalisation brings in one of [/?#@:].  No code point below
    256 normalises to text holding one of them, so over this model's strings
    it returns. *)
Definition checknetloc (netloc : string) : outcome unit := Return tt.

(** [urlparse(url).netloc] *)
Definition urlparse_netloc (url : string) : outcome string :=
  let url := lstrip_with is_c0_control_or_space url in
  let url := remove_unsafe_bytes url in
  let url := drop_scheme url in
  netloc ←
    match url with
    | String "/" (String "/" rest) =>
        let netloc := splitnetloc rest in
        if (has_char "[" netloc && negb (has_char "]" netloc))
           || (has_char "]" netloc && negb (has_char "[" netloc))
        then Raise ValueError
        else if has_char "[" netloc && has_char "]" netloc
        then (_ ← check_bracketed_netloc netloc; mret netloc)
        else mret netloc
    | _ => mret ""
    end;
  _ ← checknetloc netloc;
  mret netloc.

End Urllib.

(** ** Records and the [Py] monad

    A record is the dictionary [csv.DictReader] yields for a row: a column
    named in the header holds a string, or [None] when the row is short. *)

Inductive pyval := PyNone | PyString (s : string).

Abbreviation row := (gmap string pyval).

(** A computation over the record it was handed: it returns or raises, and
    leaves the record in some state. *)
Definition Py (A : Type) : Type := row -> outcome A * row.

#[export] Instance Py_ret : MRet Py := fun _ a r => (Return a, r).
#[export] Instance Py_bind : MBind Py := fun _ _ k c r =>
  match c r with
  | (Return a, r') => k a r'
  | (Raise e, r') => (Raise e, r')
  end.

Definition lift {A} (c : outcome A) : Py A := fun r => (c, r).

(** [row.get(key)] *)
Definition dict_get (key : string) : Py pyval := fun r => (Return (default PyNone (r !! key)), r).

(** [v or ""] *)
Definition or_empty (v : pyval) : string :=
  match v with
  | PyNone => ""
  | PyString s => if PyStr.truthy s then s else ""
  end.

(** The value [row.get(key) or ""] has in a record. *)
Definition field (r : row) (key : string) : string := or_empty (default PyNone (r !! key)).

(** The running [score] and [reasons] of one call. *)
Record tally := { score : Z; reasons : list string }.

(** [score += n] *)
Definition score_add (n : Z) (t : tally) : tally :=
  {| score := score t + n; reasons := reasons t |}.

(** [reasons.append(tag)] *)
Definition reasons_append (tag : string) (t : tally) : tally :=
  {| score := score t; reasons := reasons t ++ [tag] |}.

(** ** [src/main.py] *)

Module Main.
Import PyStr.

Definition SUSPICIOUS_KEYWORDS : list string :=
  ["verify"; "locked"; "suspended"; "action required"; "urgent"; "payment failed";
   "compromised"; "secure"; "reset"; "unusual login"].

Definition BRAND_KEYWORDS : list string := ["amazon"; "paypal"; "netflix"; "apple"; "bank"].

Definition risky : list string :=
  [".exe"; ".js"; ".vbs"; ".bat"; ".scr"; ".zip"; ".iso"; ".docm"; ".xlsm"].

Definition domain_from_email (email : string) : outcome string :=
  if negb (contains "@" email) then mret ""
  else part ← index (split1 "@" email) 1; mret (strip (lower part)).

Definition domain_from_url (url : string) : outcome string :=
  try_except (netloc ← Urllib.urlparse_netloc url; mret (strip (lower netloc)))
             (mret "").

(** [for kw in SUSPICIOUS_KEYWORDS: if kw in text: ...] *)
Definition keyword_scoring (text : string) (t : tally) : tally :=
  fold_left (fun t kw =>
               if contains kw text
               then reasons_append ("keyword:" +:+ kw) (score_add 2 t)
               else t)
            SUSPICIOUS_KEYWORDS t.

(** [for brand in brands: if ...: ...; break] *)
Fixpoint brand_scoring (brands : list string) (sender sender_domain : string) (t : tally) : tally :=
  match brands with
  | [] => t
  | brand :: brands' =>
      if contains brand sender && negb (contains brand sender_domain)
      then reasons_append ("brand_domain_mismatch:" +:+ brand) (score_add 3 t)
      else brand_scoring brands' sender sender_domain t
  end.

(** The block under [if links and links.lower() != "none":] *)
Definition link_scoring (sender sender_domain links : string) (t : tally) : outcome tally :=
  if truthy links && negb (String.eqb (lower links) "none") then
    link_domain ← domain_from_url links;
    let t := if startswith "http://" (lower links)
             then reasons_append "link:http" (score_add 3 t) else t in
    let t := if truthy link_domain && truthy sender_domain
                && negb (String.eqb link_domain sender_domain)
             then reasons_append "link_domain_mismatch" (score_add 2 t) else t in
    let t := brand_scoring BRAND_KEYWORDS sender sender_domain t in
    let t := if contains "0" links || (contains "-" link_domain && truthy link_domain)
             then reasons_append "lookalike_hint" (score_add 1 t) else t in
    mret t
  else mret t.

(** The block under [if attachments and attachments != "none":] *)
Definition attachment_scoring (attachments : string) (t : tally) : tally :=
  if truthy attachments && negb (String.eqb attachments "none") then
    let t := reasons_append "has_attachment" (score_add 2 t) in
    if existsb (fun ext => contains ext attachments) risky
    then reasons_append "risky_attachment_type" (score_add 4 t) else t
  else t.

Definition score_email : Py (Z * list string) :=
  let t := {| score := 0; reasons := [] |} in
  v ← dict_get "sender"; let sender := lower (or_empty v) in
  v ← dict_get "subject"; let subject := lower (or_empty v) in
  v ← dict_get "body"; let body := lower (or_empty v) in
  v ← dict_get "links"; let links := strip (or_empty v) in
  v ← dict_get "attachments"; let attachments := strip (lower (or_empty v)) in
  sender_domain ← lift (domain_from_email sender);
  let text := subject +:+ " " +:+ body in
  let t := keyword_scoring text t in
  t ← lift (link_scoring sender sender_domain links t);
  let t := attachment_scoring attachments t in
  mret (score t, reasons t).

End Main.

(** ** [src/web.py] *)

Module Web.
Import PyStr.

Definition KEYWORDS : list string :=
  ["verify"; "suspended"; "action required"; "locked"; "payment failed";
   "compromised"; "secure"; "reset"; "unusual login"].

(** The dictionary [BRANDS], in insertion order. *)
Definition BRANDS : list (string * list string) :=
  [("amazon", ["amazon.com"]);
   ("paypal", ["paypal.com"]);
   ("netflix", ["netflix.com"]);
   ("apple", ["apple.com"; "icloud.com"])].

Definition get_domain (url : string) : outcome string :=
  try_except (netloc ← Urllib.urlparse_netloc url;
              mret (lower (if truthy netloc then netloc else "")))
             (mret "").

Definition lookalike_hint (text : string) : bool :=
  let t := lower (if truthy text then text else "") in
  existsb (fun x => contains x t) ["0"; "1"; "secure-"; "-secure"; "login-"; "-login"].

(** [for k in KEYWORDS: if k in blob: ...] *)
Definition keyword_scoring (blob : string) (t : tally) : tally :=
  fold_left (fun t k =>
               if contains k blob
               then reasons_append ("Keyword match: '" +:+ k +:+ "'") (score_add 2 t)
               else t)
            KEYWORDS t.

(** [for brand, legit_domains in brands: ...] *)
Definition brand_scoring (brands : list (string * list string))
    (sender subject body : string) (t : tally) : tally :=
  fold_left (fun t '(brand, legit_domains) =>
               if contains brand sender || contains brand subject || contains brand body
               then if negb (existsb (fun d => contains d sender) legit_domains)
                    then reasons_append ("Brand/domain mismatch: " +:+ brand) (score_add 3 t)
                    else t
               else t)
            brands t.

(** The block under [if links and links.lower() != "none":] *)
Definition link_scoring (sender subject body links : string) (t : tally) : outcome tally :=
  if truthy links && negb (String.eqb (lower links) "none") then
    let t := if startswith "http://" (lower links)
             then reasons_append "HTTP link (not HTTPS)" (score_add 2 t) else t in
    link_domain ← get_domain links;
    sender_domain ← (if contains "@" sender then index_last (split "@" sender) else mret "");
    let t := if truthy link_domain && truthy sender_domain
                && negb (String.eqb link_domain sender_domain)
             then reasons_append "Link domain differs from sender domain" (score_add 2 t)
             else t in
    let t := brand_scoring BRANDS sender subject body t in
    mret t
  else mret t.

Definition score_email : Py (Z * list string) :=
  v ← dict_get "sender"; let sender := lower (or_empty v) in
  v ← dict_get "subject"; let subject := lower (or_empty v) in
  v ← dict_get "body"; let body := lower (or_empty v) in
  v ← dict_get "links"; let links := strip (or_empty v) in
  let t := {| score := 0; reasons := [] |} in
  let blob := sender +:+ " " +:+ subject +:+ " " +:+ body in
  let t := keyword_scoring blob t in
  v ← dict_get "attachments"; let attachments := lower (or_empty v) in
  let t := if truthy attachments && negb (String.eqb attachments "none")
           then reasons_append "Has attachment" (score_add 2 t) else t in
  t ← lift (link_scoring sender subject body links t);
  let t := if lookalike_hint sender || lookalike_hint links
           then reasons_append "Possible lookalike pattern" (score_add 1 t) else t in
  mret (score t, reasons t).

End Web.

(** ** Rule firings: the rule table read off a tally

    A firing is a rule that fired, with the points it added and the tag it
    appended. *)

Definition firing : Type := Z * string.

Definition total (l : list firing) : Z := foldr (fun f acc => fst f + acc) 0 l.

Definition tags (l : list firing) : list string := List.map snd l.

(** [t'] is [t] after the firings [l], in that order. *)
Definition extends (t t' : tally) (l : list firing) : Prop :=
  score t' = score t + total l /\ reasons t' = (reasons t ++ tags l)%list.

(** One firing when [b] holds, none otherwise. *)
Definition fires (b : bool) (delta : Z) (tag : string) : list firing :=
  if b then [(delta, tag)] else [].

(** The sum of the deltas a table [delta] gives the tags of [rs]. *)
Definition sum_deltas (delta : string -> Z) (rs : list string) : Z :=
  foldr (fun tag acc => delta tag + acc) 0 rs.

(** A firing that adds the delta its tag has in the table [delta], which is
    not negative. *)
Definition sound_firing (delta : string -> Z) (f : firing) : Prop :=
  fst f = delta (snd f) /\ 0 <= fst f.

(** [links and links.lower() != "none"] *)
Definition links_present (links : string) : bool :=
  PyStr.truthy links && negb (String.eqb (PyStr.lower links) "none").

(** The fields as [score_email] normalises them (both profiles). *)
Definition sender_of (r : row) : string := PyStr.lower (field r "sender").
Definition subject_of (r : row) : string := PyStr.lower (field r "subject").
Definition body_of (r : row) : string := PyStr.lower (field r "body").
Definition links_of (r : row) : string := PyStr.strip (field r "links").

(** *** The rule table of [src/main.py] *)

Module MainRules.
Import PyStr.

Definition attachments_of (r : row) : string := strip (lower (field r "attachments")).

(** The text after the first [@], lower-cased and trimmed; empty without [@]. *)
Definition email_domain (email : string) : string :=
  if contains "@" email then strip (lower (snd (partition "@" email))) else "".

(** The lower-cased, trimmed netloc; empty when [urlparse] raises. *)
Definition url_domain (url : string) : string :=
  match Urllib.urlparse_netloc url with
  | Return netloc => strip (lower netloc)
  | Raise _ => ""
  end.

Definition sender_domain_of (r : row) : string := email_domain (sender_of r).
Definition link_domain_of (r : row) : string := url_domain (links_of r).
Definition text_of (r : row) : string := subject_of r +:+ " " +:+ body_of r.

Definition keyword_tag (kw : string) : string := "keyword:" +:+ kw.
Definition brand_tag (brand : string) : string := "brand_domain_mismatch:" +:+ brand.

(** The points of each reason tag. *)
Definition delta_of_reason (tag : string) : Z :=
  if startswith "keyword:" tag then 2
  else if String.eqb tag "link:http" then 3
  else if String.eqb tag "link_domain_mismatch" then 2
  else if startswith "brand_domain_mismatch:" tag then 3
  else if String.eqb tag "lookalike_hint" then 1
  else if String.eqb tag "has_attachment" then 2
  else if String.eqb tag "risky_attachment_type" then 4
  else 0.

(** Every tag, in the order the rules are evaluated. *)
Definition rule_tags : list string :=
  (List.map keyword_tag Main.SUSPICIOUS_KEYWORDS
   ++ ["link:http"; "link_domain_mismatch"]
   ++ List.map brand_tag Main.BRAND_KEYWORDS
   ++ ["lookalike_hint"; "has_attachment"; "risky_attachment_type"])%list.

(** The brand rule's condition for one brand. *)
Definition brand_mismatch (sender sender_domain brand : string) : bool :=
  contains brand sender && negb (contains brand sender_domain).

Definition http_link (r : row) : bool := startswith "http://" (lower (links_of r)).

Definition domains_differ (r : row) : bool :=
  truthy (link_domain_of r) && truthy (sender_domain_of r)
  && negb (String.eqb (link_domain_of r) (sender_domain_of r)).

Definition lookalike (r : row) : bool :=
  contains "0" (links_of r) || (contains "-" (link_domain_of r) && truthy (link_domain_of r)).

Definition has_attachment (r : row) : bool :=
  truthy (attachments_of r) && negb (String.eqb (attachments_of r) "none").

Definition risky_attachment (r : row) : bool :=
  existsb (fun ext => contains ext (attachments_of r)) Main.risky.

Definition keyword_firings (r : row) : list firing :=
  List.map (fun kw => (2, keyword_tag kw))
           (List.filter (fun kw => contains kw (text_of r)) Main.SUSPICIOUS_KEYWORDS).

Definition brand_firings (r : row) : list firing :=
  match List.find (brand_mismatch (sender_of r) (sender_domain_of r)) Main.BRAND_KEYWORDS with
  | Some brand => [(3, brand_tag brand)]
  | None => []
  end.

Definition link_firings (r : row) : list firing :=
  if links_present (links_of r) then
    (fires (http_link r) 3 "link:http"
     ++ fires (domains_differ r) 2 "link_domain_mismatch"
     ++ brand_firings r
     ++ fires (lookalike r) 1 "lookalike_hint")%list
  else [].

Definition attachment_firings (r : row) : list firing :=
  if has_attachment r
  then ((2, "has_attachment") :: fires (risky_attachment r) 4 "risky_attachment_type")
  else [].

(** The rules that fire on a record, in evaluation order. *)
Definition rule_firings (r : row) : list firing :=
  (keyword_firings r ++ link_firings r ++ attachment_firings r)%list.

End MainRules.

(** *** The rule table of [src/web.py] *)

Module WebRules.
Import PyStr.

Definition attachments_of (r : row) : string := lower (field r "attachments").

(** The text after the last [@]; empty without [@]. *)
Definition email_domain (sender : string) : string :=
  if contains "@" sender then List.last (split "@" sender) "" else "".

(** The lower-cased netloc; empty when [urlparse] raises. *)
Definition url_domain (url : string) : string :=
  match Urllib.urlparse_netloc url with
  | Return netloc => lower (if truthy netloc then netloc else "")
  | Raise _ => ""
  end.

Definition sender_domain_of (r : row) : string := email_domain (sender_of r).
Definition link_domain_of (r : row) : string := url_domain (links_of r).
Definition blob_of (r : row) : string := sender_of r +:+ " " +:+ subject_of r +:+ " " +:+ body_of r.

Definition keyword_tag (k : string) : string := "Keyword match: '" +:+ k +:+ "'".
Definition brand_tag (brand : string) : string := "Brand/domain mismatch: " +:+ brand.

(** The points of each reason. *)
Definition delta_of_reason (tag : string) : Z :=
  if startswith "Keyword match: '" tag then 2
  else if String.eqb tag "Has attachment" then 2
  else if String.eqb tag "HTTP link (not HTTPS)" then 2
  else if String.eqb tag "Link domain differs from sender domain" then 2
  else if startswith "Brand/domain mismatch: " tag then 3
  else if String.eqb tag "Possible lookalike pattern" then 1
  else 0.

(** Every reason, in the order the rules are evaluated. *)
Definition rule_tags : list string :=
  (List.map keyword_tag Web.KEYWORDS
   ++ ["Has attachment"; "HTTP link (not HTTPS)"; "Link domain differs from sender domain"]
   ++ List.map (fun b => brand_tag (fst b)) Web.BRANDS
   ++ ["Possible lookalike pattern"])%list.

(** A brand is mentioned in the sender, the subject or the body. *)
Definition brand_mentioned (r : row) (brand : string) : bool :=
  contains brand (sender_of r) || contains brand (subject_of r) || contains brand (body_of r).

(** One of the brand's legitimate domains occurs in the sender. *)
Definition legit_sender (r : row) (legit_domains : list string) : bool :=
  existsb (fun d => contains d (sender_of r)) legit_domains.

(** The brand rule's condition for one entry of [BRANDS]. *)
Definition brand_mismatch (r : row) (b : string * list string) : bool :=
  brand_mentioned r (fst b) && negb (legit_sender r (snd b)).

Definition has_attachment (r : row) : bool :=
  truthy (attachments_of r) && negb (String.eqb (attachments_of r) "none").

Definition http_link (r : row) : bool := startswith "http://" (lower (links_of r)).

Definition domains_differ (r : row) : bool :=
  truthy (link_domain_of r) && truthy (sender_domain_of r)
  && negb (String.eqb (link_domain_of r) (sender_domain_of r)).

Definition lookalike (r : row) : bool :=
  Web.lookalike_hint (sender_of r) || Web.lookalike_hint (links_of r).

Definition keyword_firings (r : row) : list firing :=
  List.map (fun k => (2, keyword_tag k))
           (List.filter (fun k => contains k (blob_of r)) Web.KEYWORDS).

Definition brand_firings (r : row) : list firing :=
  List.map (fun b => (3, brand_tag (fst b))) (List.filter (brand_mismatch r) Web.BRANDS).

Definition link_firings (r : row) : list firing :=
  if links_present (links_of r) then
    (fires (http_link r) 2 "HTTP link (not HTTPS)"
     ++ fires (domains_differ r) 2 "Link domain differs from sender domain"
     ++ brand_firings r)%list
  else [].

(** The rules that fire on a record, in evaluation order. *)
Definition rule_firings (r : row) : list firing :=
  (keyword_firings r
   ++ fires (has_attachment r) 2 "Has attachment"
   ++ link_firings r
   ++ fires (lookalike r) 1 "Possible lookalike pattern")%list.

End WebRules.

(** ** Ranking: [list.sort(key=..., reverse=True)] and the score filter

    [score_of] stands for [r["_score"]] in [main] and [x["score"]] in
    [index]. *)

Section Ranking.
Context {record : Type} (score_of : record -> Z).

(** Where [x] goes in a sorted list of the records that followed it in the
    input: before the first one that does not score higher. *)
Fixpoint insert_desc (x : record) (l : list record) : list record :=
  match l with
  | [] => [x]
  | y :: l' => if score_of x <? score_of y then y :: insert_desc x l' else x :: l
  end.

(** [l.sort(key=score_of, reverse=True)]: Python's sort is stable, also with
    [reverse=True], and a stable descending sort has one result (lemma
    [sort_desc_unique]); insertion computes it. *)
Definition sort_desc (l : list record) : list record := foldr insert_desc [] l.

(** [[r for r in l if score_of(r) >= min_score]] *)
Definition at_least (min_score : Z) (l : list record) : list record :=
  List.filter (fun r => min_score <=? score_of r) l.

(** [main]: [emails.sort(...)], then [filtered = [r for r in emails if ...]] *)
Definition main_filtered (emails : list record) (min_score : Z) : list record :=
  at_least min_score (sort_desc emails).

(** [index]: [scored] collects the records with [s >= min_score], then
    [scored.sort(...)] *)
Definition web_scored (emails : list record) (min_score : Z) : list record :=
  sort_desc (at_least min_score emails).

(** [main]: [for r in filtered[:10]], the records it prints. *)
Definition main_printed (emails : list record) (min_score : Z) : list record :=
  firstn 10 (main_filtered emails min_score).

(** The records of [l] that score exactly [k], in the order of [l]. *)
Definition scoring (k : Z) (l : list record) : list record :=
  List.filter (fun r => score_of r =? k) l.

End Ranking.

(** The record of a row whose columns hold the given strings. *)
Definition row_of (columns : list (string * string)) : row :=
  list_to_map (List.map (fun c => (fst c, PyString (snd c))) columns).

(** A column that is absent from the record, or holds [None] or the empty
    string. *)
Definition blank (r : row) (key : string) : Prop :=
  r !! key = None \/ r !! key = Some PyNone \/ r !! key = Some (PyString "").

(** The columns [score_email] reads. *)
Definition scored_columns : list string := ["sender"; "subject"; "body"; "links"; "attachments"].

(** ** [csv.DictReader]

    [csv.reader] is taken as it yields: one list of cells per line, the empty
    list for a blank line. *)

Module Csv.

(** [DictReader.__next__] on one row: [d = dict(zip(fieldnames, row))], and
    for a short row [d[key] = None] for each name past its cells.  The cells
    of a long row past the names go under the key [None], which no string
    names. *)
Definition dict_row (fieldnames cells : list string) : row :=
  let d := fold_left (fun (d : row) kv => <[fst kv := PyString (snd kv)]> d)
                     (zip fieldnames cells) ∅ in
  fold_left (fun (d : row) key => <[key := PyNone]> d)
            (drop (List.length cells) fieldnames) d.

(** The rows a [DictReader] yields: the first line names the columns, and
    blank lines are passed over. *)
Definition DictReader (lines : list (list string)) : list row :=
  match lines with
  | [] => []
  | fieldnames :: rest =>
      List.map (dict_row fieldnames)
               (List.filter (fun cells => negb (Nat.eqb (List.length cells) 0)) rest)
  end.

End Csv.

(** ** [main] of [src/main.py]

    The input file is what [csv.reader] yields over it, or [None] when
    [input_path.exists()] is false; what [main] prints and writes is kept as
    data, not as text. *)

Module Cli.

(** A value of a row once [main] has scored it: a cell of the input, or the
    [int] score. *)
Inductive pyobj := PyCell (v : pyval) | PyInt (z : Z).

Abbreviation scored_row := (gmap string pyobj).

(** The body of [for row in reader:]: [s, reasons = score_email(row)],
    [row["_score"] = s], [row["_reasons"] = ";".join(reasons)].  [None] when
    [score_email] raises. *)
Definition score_row (r : row) : option scored_row :=
  match Main.score_email r with
  | (Return (s, reasons), r') =>
      Some (<["_reasons" := PyCell (PyString (String.concat ";" reasons))]>
              (<["_score" := PyInt s]> (PyCell <$> r')))
  | (Raise _, _) => None
  end.

(** [r["_score"]], as the sort key and as the operand of [>=]: [None] for a
    [KeyError], and for a value other than the [int] the loop stores there,
    which [main] never compares. *)
Definition score_key (r : scored_row) : option Z :=
  match r !! "_score" with
  | Some (PyInt z) => Some z
  | _ => None
  end.

(** The rows with their keys, as [list.sort] computes them before it
    compares. *)
Definition keyed (emails : list scored_row) : option (list (Z * scored_row)) :=
  mapM (fun r => k ← score_key r; Some (k, r)) emails.

(** [r.get(key)] *)
Definition get (r : scored_row) (key : string) : pyobj := default (PyCell PyNone) (r !! key).

(** The dictionary [main] hands to [w.writerow]. *)
Definition report_row (r : scored_row) : option scored_row :=
  s ← r !! "_score";
  reasons ← r !! "_reasons";
  Some (list_to_map [("id", get r "id"); ("sender", get r "sender");
                     ("subject", get r "subject"); ("links", get r "links");
                     ("attachments", get r "attachments");
                     ("score", s); ("reasons", reasons)]).

Record output := {
  loaded : nat;                 (* [len(emails)] *)
  showing : nat;                (* [len(filtered)] *)
  printed : list scored_row;    (* [filtered[:10]] *)
  report : list scored_row      (* the rows written after the header *)
}.

Inductive result := MissingFile | Saved (o : output).

Definition main (input : option (list (list string))) (min_score : Z) : option result :=
  match input with
  | None => Some MissingFile
  | Some lines =>
      emails ← mapM score_row (Csv.DictReader lines);
      sorted ← keyed emails;
      let emails := List.map snd (sort_desc fst sorted) in
      compared ← keyed emails;
      let filtered := List.map snd (at_least fst min_score compared) in
      report ← mapM report_row emails;
      Some (Saved {| loaded := List.length emails;
                     showing := List.length filtered;
                     printed := firstn 10 filtered;
                     report := report |})
  end.

(** What [score_email] gives a record: its score and its reasons. *)
Definition score_of (r : row) : Z :=
  match fst (Main.score_email r) with Return (s, _) => s | Raise _ => 0 end.

Definition reasons_of (r : row) : list string :=
  match fst (Main.score_email r) with Return (_, reasons) => reasons | Raise _ => [] end.

(** The record as the loop leaves it, with its two added keys. *)
Definition scored_of (r : row) : scored_row :=
  <["_reasons" := PyCell (PyString (String.concat ";" (reasons_of r)))]>
    (<["_score" := PyInt (score_of r)]> (PyCell <$> r)).

(** The report's line for a record. *)
Definition line_of (r : row) : scored_row :=
  list_to_map [("id", PyCell (default PyNone (r !! "id")));
               ("sender", PyCell (default PyNone (r !! "sender")));
               ("subject", PyCell (default PyNone (r !! "subject")));
               ("links", PyCell (default PyNone (r !! "links")));
               ("attachments", PyCell (default PyNone (r !! "attachments")));
               ("score", PyInt (score_of r));
               ("reasons", PyCell (PyString (String.concat ";" (reasons_of r))))].

End Cli.

(** ** [load_emails] and [index] of [src/web.py]

    [index] is taken after it has read its threshold: [min_score] is the
    integer [int(request.args.get("min_score", "8"))] gave, or 8.  The page is
    kept as the values handed to the template. *)

Module Site.

(** [load_emails]: every row of the [DictReader], in order. *)
Definition load_emails (lines : list (list string)) : list row := Csv.DictReader lines.

(** The dictionary [out]. *)
Record out := {
  id : pyval;
  sender : pyval;
  subject : pyval;
  score : Z;
  reasons_list : list string
}.

(** [e.get(key, "")] *)
Definition get (e : row) (key : string) : pyval := default (PyString "") (e !! key).

(** The body of [for e in emails:]: what it appends to [scored]. *)
Definition score_entry (min_score : Z) (e : row) : outcome (list out) :=
  match Web.score_email e with
  | (Return (s, reasons), e') =>
      let o := {| id := get e' "id"; sender := get e' "sender"; subject := get e' "subject";
                  score := s;
                  reasons_list := match reasons with
                                  | [] => ["No indicators found"]
                                  | _ => reasons
                                  end |} in
      Return (if min_score <=? s then [o] else [])
  | (Raise x, _) => Raise x
  end.

Record page := {
  loaded : nat;
  shown : nat;
  results : list out;
  error : bool        (* whether the template gets an error text *)
}.

(** [index], with [None] for an input file [load_emails] cannot open. *)
Definition index (input : option (list (list string))) (min_score : Z) : page :=
  let failed := {| loaded := 0; shown := 0; results := []; error := true |} in
  match input with
  | None => failed
  | Some lines =>
      let emails := load_emails lines in
      match mapM (score_entry min_score) emails with
      | Return appended =>
          let scored := sort_desc score (List.concat appended) in
          {| loaded := List.length emails; shown := List.length scored;
             results := scored; error := false |}
      | Raise _ => failed
      end
  end.

(** What [score_email] gives a record. *)
Definition score_of (r : row) : Z :=
  match fst (Web.score_email r) with Return (s, _) => s | Raise _ => 0 end.

Definition reasons_of (r : row) : list string :=
  match fst (Web.score_email r) with Return (_, reasons) => reasons | Raise _ => [] end.

(** The entry [index] builds for a record. *)
Definition out_of (r : row) : out :=
  {| id := get r "id"; sender := get r "sender"; subject := get r "subject";
     score := score_of r;
     reasons_list := match reasons_of r with
                     | [] => ["No indicators found"]
                     | _ => reasons_of r
                     end |}.

End Site.

(** ** Words for the further properties *)

(** [raw] holds [kw] in some mix of upper and lower case. *)
Definition mentions (raw kw : string) : Prop :=
  exists a w b, raw = a +:+ w +:+ b /\ PyStr.lower w = kw.

(** A character a host may hold for [urlsplit] to take it whole: none of
    [/ ? #], no bracket, and none of the tab, line feed and carriage return
    that [urlsplit] removes. *)
Definition plain_host_char (c : ascii) : bool :=
  negb (Urllib.is_netloc_delim c)
  && negb (Ascii.eqb c "[") && negb (Ascii.eqb c "]")
  && negb (Ascii.eqb c "009") && negb (Ascii.eqb c "010") && negb (Ascii.eqb c "013").

(** A scheme as [urlsplit] takes one: an ASCII letter, then scheme
    characters. *)
Definition is_scheme (sch : string) : bool :=
  match sch with
  | String c _ => Urllib.is_ascii_alpha c && PyStr.all_chars Urllib.is_scheme_char sch
  | EmptyString => false
  end.

(** Nothing, or text that starts the path, the query or the fragment. *)
Definition starts_rest (rest : string) : bool :=
  match rest with
  | EmptyString => true
  | String c _ => Urllib.is_netloc_delim c
  end.

(** Two records in which [row.get(key) or ""] is the same for every key. *)
Definition same_fields (r r' : row) : Prop := forall key, field r key = field r' key.

(** No delimiter of a netloc occurs in [s]. *)
Definition no_delim (s : string) : bool :=
  PyStr.all_chars (fun c => negb (Urllib.is_netloc_delim c)) s.

(** * Proofs *)

(** A decidable statement about closed terms, by evaluation. *)
Ltac decide_closed := apply (bool_decide_unpack _); vm_compute; exact I.

(** ** String facts *)

Section Strings.
Import PyStr.

Lemma startswith_app p s : startswith p (p +:+ s) = true.
Proof.
  induction p as [|a p IH]; simpl; [reflexivity|].
  now rewrite Ascii.eqb_refl, IH.
Qed.

Lemma startswith_inv p s : startswith p s = true -> exists rest, s = p +:+ rest.
Proof.
  revert s. induction p as [|a p IH]; intros s H; simpl in *.
  - now exists s.
  - destruct s as [|b s]; [discriminate|].
    apply andb_true_iff in H as [Hab Hp].
    apply Ascii.eqb_eq in Hab as ->.
    destruct (IH _ Hp) as [rest ->]. now exists rest.
Qed.

Lemma startswith_contains p s : startswith p s = true -> contains p s = true.
Proof. destruct s; simpl; intros ->; reflexivity. Qed.

(** [contains] is the substring test. *)
Lemma contains_iff sub s :
  contains sub s = true <-> exists a b, s = a +:+ sub +:+ b.
Proof.
  split.
  - induction s as [|c s IH]; simpl; intros H.
    + rewrite orb_false_r in H. apply startswith_inv in H as [rest ->].
      now exists "", rest.
    + apply orb_true_iff in H as [H|H].
      * apply startswith_inv in H as [rest ->]. now exists "", rest.
      * destruct (IH H) as (a & b & ->). now exists (String c a), b.
  - intros (a & b & ->). induction a as [|c a IH]; simpl.
    + apply startswith_contains. exact (startswith_app sub b).
    + rewrite IH. apply orb_true_r.
Qed.

Lemma contains_char_has_char c s : contains (String c "") s = has_char c s.
Proof.
  unfold has_char. induction s as [|b s IH]; simpl; [reflexivity|].
  rewrite IH, (Ascii.eqb_sym c b), andb_true_r.
  now destruct (Ascii.eqb b c); simpl.
Qed.

Lemma partition_found sep s : snd (fst (partition sep s)) = has_char sep s.
Proof.
  unfold has_char. induction s as [|c s IH]; simpl; [reflexivity|].
  destruct (Ascii.eqb c sep); simpl; [reflexivity|].
  destruct (partition sep s) as [[a f] b]; simpl in *. exact IH.
Qed.

(** [partition] splits at the first separator. *)
Lemma partition_app sep pre post :
  has_char sep pre = false ->
  partition sep (pre +:+ String sep post) = (pre, true, post).
Proof.
  unfold has_char. induction pre as [|c pre IH]; simpl; intros H.
  - now rewrite Ascii.eqb_refl.
  - destruct (Ascii.eqb c sep); simpl in *; [discriminate|].
    now rewrite IH.
Qed.


Lemma split_nonempty sep s : split sep s <> [].
Proof.
  destruct s as [|c s]; simpl; [discriminate|].
  destruct (Ascii.eqb c sep); [discriminate|].
  destruct (split sep s); discriminate.
Qed.

Lemma lower_app a b : lower (a +:+ b) = lower a +:+ lower b.
Proof. induction a as [|c a IH]; simpl; [reflexivity | now rewrite IH]. Qed.

End Strings.

Section Tally.

Lemma total_app (l1 l2 : list firing) : total (l1 ++ l2) = total l1 + total l2.
Proof. induction l1 as [|f l1 IH]; simpl; [reflexivity | rewrite IH; lia]. Qed.

Lemma tags_app (l1 l2 : list firing) : tags (l1 ++ l2) = (tags l1 ++ tags l2)%list.
Proof. apply List.map_app. Qed.

Lemma extends_nil t : extends t t [].
Proof. split; simpl; [lia | now rewrite app_nil_r]. Qed.

Lemma extends_trans t1 t2 t3 l1 l2 :
  extends t1 t2 l1 -> extends t2 t3 l2 -> extends t1 t3 (l1 ++ l2).
Proof.
  intros [Hs1 Hr1] [Hs2 Hr2]. split.
  - rewrite Hs2, Hs1, total_app. lia.
  - rewrite Hr2, Hr1, tags_app. now rewrite app_assoc.
Qed.

Lemma extends_fire t delta tag :
  extends t (reasons_append tag (score_add delta t)) [(delta, tag)].
Proof. split; simpl; [lia | reflexivity]. Qed.

Lemma extends_fires (b : bool) t delta tag :
  extends t (if b then reasons_append tag (score_add delta t) else t) (fires b delta tag).
Proof. destruct b; [apply extends_fire | apply extends_nil]. Qed.

(** A loop that fires [rule x] for each [x] with [cond x]. *)
Lemma extends_fold {A} (cond : A -> bool) (rule : A -> firing) (step : tally -> A -> tally)
    (l : list A) t :
  (forall t x, step t x = if cond x
                          then reasons_append (snd (rule x)) (score_add (fst (rule x)) t)
                          else t) ->
  extends t (fold_left step l t) (List.map rule (List.filter cond l)).
Proof.
  intros Hstep. revert t. induction l as [|x l IH]; intros t; simpl.
  - apply extends_nil.
  - rewrite Hstep. destruct (cond x); simpl.
    + change (rule x :: List.map rule (List.filter cond l))
        with ([rule x] ++ List.map rule (List.filter cond l))%list.
      eapply extends_trans; [|apply IH].
      destruct (rule x) as [d tg]. apply extends_fire.
    + apply IH.
Qed.

Lemma extends_from_zero t l :
  extends {| score := 0; reasons := [] |} t l -> (score t, reasons t) = (total l, tags l).
Proof. intros [Hs Hr]. simpl in *. rewrite Hs, Hr. f_equal. Qed.

End Tally.

(** ** [src/main.py]: what [score_email] computes *)

Section MainRun.
Import PyStr Main MainRules.

Lemma domain_from_email_eq email : domain_from_email email = Return (email_domain email).
Proof.
  unfold domain_from_email, email_domain, split1.
  pose proof (partition_found "@" email) as Hf.
  rewrite <- contains_char_has_char in Hf.
  destruct (partition "@" email) as [[a f] b]; simpl in Hf. subst f.
  destruct (contains "@" email); reflexivity.
Qed.

Lemma domain_from_url_eq url : domain_from_url url = Return (url_domain url).
Proof.
  unfold domain_from_url, url_domain.
  destruct (Urllib.urlparse_netloc url); reflexivity.
Qed.

Lemma keyword_scoring_extends r t :
  extends t (keyword_scoring (text_of r) t) (keyword_firings r).
Proof.
  apply (extends_fold (fun kw => contains kw (text_of r)) (fun kw => (2, keyword_tag kw))).
  reflexivity.
Qed.

Lemma brand_scoring_extends brands sender dom t :
  extends t (brand_scoring brands sender dom t)
    (match List.find (brand_mismatch sender dom) brands with
     | Some brand => [(3, brand_tag brand)]
     | None => []
     end).
Proof.
  induction brands as [|b brands IH]; simpl.
  - apply extends_nil.
  - unfold brand_mismatch at 1.
    destruct (contains b sender && negb (contains b dom)).
    + apply extends_fire.
    + apply IH.
Qed.

Lemma link_scoring_extends r t :
  exists t', link_scoring (sender_of r) (sender_domain_of r) (links_of r) t = Return t'
             /\ extends t t' (link_firings r).
Proof.
  unfold link_scoring, link_firings, links_present.
  destruct (truthy (links_of r) && negb (String.eqb (lower (links_of r)) "none")).
  - rewrite domain_from_url_eq. cbn [mbind outcome_bind obind mret outcome_ret].
    eexists. split; [reflexivity|].
    eapply extends_trans; [apply (extends_fires (http_link r))|].
    eapply extends_trans; [apply (extends_fires (domains_differ r))|].
    eapply extends_trans; [apply brand_scoring_extends|].
    apply (extends_fires (lookalike r)).
  - eexists. split; [reflexivity | apply extends_nil].
Qed.

Lemma attachment_scoring_extends r t :
  extends t (attachment_scoring (attachments_of r) t) (attachment_firings r).
Proof.
  unfold attachment_scoring, attachment_firings, has_attachment.
  destruct (truthy (attachments_of r) && negb (String.eqb (attachments_of r) "none")).
  - change ((2, "has_attachment") :: fires (risky_attachment r) 4 "risky_attachment_type")
      with ([(2, "has_attachment")] ++ fires (risky_attachment r) 4 "risky_attachment_type")%list.
    eapply extends_trans; [apply extends_fire|].
    apply (extends_fires (risky_attachment r)).
  - apply extends_nil.
Qed.

(** [score_email] returns the total and the tags of the rules that fire,
    and hands the record back as it was. *)
Lemma main_score_email_eq (r : row) :
  Main.score_email r = (Return (total (rule_firings r), tags (rule_firings r)), r).
Proof.
  unfold Main.score_email.
  cbv [mbind Py_bind mret Py_ret dict_get lift].
  fold (field r "sender") (field r "subject") (field r "body") (field r "links")
       (field r "attachments").
  fold (sender_of r) (subject_of r) (body_of r) (links_of r) (attachments_of r).
  rewrite domain_from_email_eq. fold (sender_domain_of r). fold (text_of r).
  destruct (link_scoring_extends r (keyword_scoring (text_of r) {| score := 0; reasons := [] |}))
    as (t' & -> & Ht').
  f_equal. f_equal. apply extends_from_zero. unfold rule_firings.
  eapply extends_trans; [apply keyword_scoring_extends|].
  eapply extends_trans; [exact Ht'|].
  apply attachment_scoring_extends.
Qed.

End MainRun.

(** ** [src/web.py]: what [score_email] computes *)

Section WebRun.
Import PyStr Web WebRules.

Lemma get_domain_eq url : get_domain url = Return (url_domain url).
Proof.
  unfold get_domain, url_domain.
  destruct (Urllib.urlparse_netloc url); reflexivity.
Qed.

Lemma index_last_split sep s : index_last (split sep s) = Return (List.last (split sep s) "").
Proof.
  unfold index_last. pose proof (split_nonempty sep s) as Hne.
  induction (split sep s) as [|w ws IH]; [congruence|].
  destruct ws as [|w' ws]; [reflexivity|].
  change (last (w :: w' :: ws)) with (last (w' :: ws)).
  change (List.last (w :: w' :: ws) "") with (List.last (w' :: ws) "").
  apply IH. discriminate.
Qed.

Lemma web_sender_domain_eq sender :
  (if contains "@" sender then index_last (split "@" sender) else mret "")
  = Return (email_domain sender).
Proof.
  unfold email_domain. destruct (contains "@" sender); [apply index_last_split | reflexivity].
Qed.

Lemma web_keyword_scoring_extends r t :
  extends t (Web.keyword_scoring (blob_of r) t) (keyword_firings r).
Proof.
  apply (extends_fold (fun k => contains k (blob_of r)) (fun k => (2, keyword_tag k))).
  reflexivity.
Qed.

Lemma web_brand_scoring_extends r t :
  extends t (Web.brand_scoring BRANDS (sender_of r) (subject_of r) (body_of r) t)
            (brand_firings r).
Proof.
  apply (extends_fold (brand_mismatch r) (fun b => (3, brand_tag (fst b)))).
  intros t0 [brand legit]. unfold brand_mismatch, brand_mentioned, legit_sender. simpl.
  destruct (contains brand (sender_of r) || contains brand (subject_of r)
            || contains brand (body_of r)); simpl; [|reflexivity].
  destruct (existsb (fun d => contains d (sender_of r)) legit); reflexivity.
Qed.

Lemma web_link_scoring_extends r t :
  exists t', Web.link_scoring (sender_of r) (subject_of r) (body_of r) (links_of r) t = Return t'
             /\ extends t t' (link_firings r).
Proof.
  unfold Web.link_scoring, link_firings, links_present.
  destruct (truthy (links_of r) && negb (String.eqb (lower (links_of r)) "none")).
  - rewrite get_domain_eq. cbn [mbind outcome_bind obind].
    rewrite web_sender_domain_eq. cbn [mbind outcome_bind obind mret outcome_ret].
    eexists. split; [reflexivity|].
    eapply extends_trans; [apply (extends_fires (http_link r))|].
    eapply extends_trans; [apply (extends_fires (domains_differ r))|].
    apply web_brand_scoring_extends.
  - eexists. split; [reflexivity | apply extends_nil].
Qed.

(** [score_email] returns the total and the reasons of the rules that fire,
    and hands the record back as it was. *)
Lemma web_score_email_eq (r : row) :
  Web.score_email r = (Return (total (rule_firings r), tags (rule_firings r)), r).
Proof.
  unfold Web.score_email.
  cbv [mbind Py_bind mret Py_ret dict_get lift].
  fold (field r "sender") (field r "subject") (field r "body") (field r "links")
       (field r "attachments").
  fold (sender_of r) (subject_of r) (body_of r) (links_of r) (attachments_of r).
  fold (blob_of r).
  match goal with
  | |- context [Web.link_scoring _ _ _ _ ?t] =>
      destruct (web_link_scoring_extends r t) as (t' & -> & Ht')
  end.
  f_equal. f_equal. apply extends_from_zero. unfold rule_firings.
  eapply extends_trans; [apply web_keyword_scoring_extends|].
  eapply extends_trans; [apply (extends_fires (has_attachment r))|].
  eapply extends_trans; [exact Ht'|].
  apply (extends_fires (lookalike r)).
Qed.

End WebRun.

(** ** Scores are sums of deltas, reasons follow the rule order *)

Section Deltas.

Lemma total_sum_deltas (delta : string -> Z) (l : list firing) :
  Forall (fun f => fst f = delta (snd f)) l -> total l = sum_deltas delta (tags l).
Proof.
  induction 1 as [|f l Hf _ IH]; simpl; [reflexivity|]. now rewrite Hf, IH.
Qed.

Lemma total_nonneg (l : list firing) : Forall (fun f => 0 <= fst f) l -> 0 <= total l.
Proof. induction 1 as [|f l Hf _ IH]; simpl; lia. Qed.

Lemma Forall_map_filter {A B} (P : B -> Prop) (f : A -> B) (p : A -> bool) (l : list A) :
  (forall x, P (f x)) -> Forall P (List.map f (List.filter p l)).
Proof.
  intros H. induction l as [|x l IH]; simpl; [constructor|].
  destruct (p x); simpl; [constructor; auto | exact IH].
Qed.

Lemma Forall_fires (P : firing -> Prop) (b : bool) delta tag :
  P (delta, tag) -> Forall P (fires b delta tag).
Proof. intros H. destruct b; simpl; repeat constructor; exact H. Qed.

Lemma sublist_map_filter {A B} (f : A -> B) (p : A -> bool) (l : list A) :
  List.map f (List.filter p l) `sublist_of` List.map f l.
Proof.
  induction l as [|x l IH]; simpl; [constructor|].
  destruct (p x); simpl; [apply sublist_skip | apply sublist_cons]; exact IH.
Qed.

Lemma sublist_fires (b : bool) delta tag : tags (fires b delta tag) `sublist_of` [tag].
Proof. destruct b; simpl; [reflexivity | apply sublist_nil_l]. Qed.

Lemma sublist_find_map {A B} (f : A -> B) (p : A -> bool) (l : list A) :
  match List.find p l with Some x => [f x] | None => [] end `sublist_of` List.map f l.
Proof.
  induction l as [|x l IH]; simpl; [constructor|].
  destruct (p x).
  - apply sublist_skip, sublist_nil_l.
  - apply sublist_cons, IH.
Qed.

End Deltas.

Section MainDeltas.
Import PyStr Main MainRules.

Lemma main_brand_firings_cases r :
  brand_firings r = [] \/ exists brand, brand_firings r = [(3, brand_tag brand)].
Proof.
  unfold brand_firings.
  destruct (List.find _ _) as [b|]; [right; now exists b | now left].
Qed.

Lemma main_firings_sound r : Forall (sound_firing delta_of_reason) (rule_firings r).
Proof.
  unfold rule_firings, keyword_firings, link_firings, attachment_firings.
  repeat (apply Forall_app; split).
  - apply Forall_map_filter. intros kw. split; [reflexivity | simpl; lia].
  - destruct (links_present _); [|constructor].
    repeat (apply Forall_app; split);
      try (apply Forall_fires; split; [reflexivity | simpl; lia]).
    destruct (main_brand_firings_cases r) as [-> | [b ->]]; repeat constructor.
    simpl; lia.
  - destruct (has_attachment r); [|constructor].
    constructor; [split; [reflexivity | simpl; lia]|].
    apply Forall_fires; split; [reflexivity | simpl; lia].
Qed.

Lemma main_tags_sublist r : tags (rule_firings r) `sublist_of` rule_tags.
Proof.
  change rule_tags with
    (List.map keyword_tag SUSPICIOUS_KEYWORDS
     ++ (["link:http"] ++ ["link_domain_mismatch"] ++ List.map brand_tag BRAND_KEYWORDS
         ++ ["lookalike_hint"])
     ++ ["has_attachment"] ++ ["risky_attachment_type"])%list.
  unfold rule_firings. rewrite !tags_app.
  apply sublist_app; [|apply sublist_app].
  - unfold keyword_firings, tags. rewrite List.map_map.
    exact (sublist_map_filter keyword_tag _ _).
  - unfold link_firings. destruct (links_present _); [|apply sublist_nil_l].
    rewrite !tags_app. repeat apply sublist_app; try apply sublist_fires.
    unfold brand_firings.
    pose proof (sublist_find_map brand_tag
                  (brand_mismatch (sender_of r) (sender_domain_of r)) BRAND_KEYWORDS) as H.
    destruct (List.find _ _); exact H.
  - unfold attachment_firings. destruct (has_attachment r); [|apply sublist_nil_l].
    change (tags ((2, "has_attachment") :: fires (risky_attachment r) 4 "risky_attachment_type"))
      with (["has_attachment"] ++ tags (fires (risky_attachment r) 4 "risky_attachment_type"))%list.
    apply sublist_app; [reflexivity | apply sublist_fires].
Qed.

End MainDeltas.

Section WebDeltas.
Import PyStr Web WebRules.

Lemma web_firings_sound r : Forall (sound_firing delta_of_reason) (rule_firings r).
Proof.
  unfold rule_firings, keyword_firings, link_firings, brand_firings.
  repeat (apply Forall_app; split);
    try (apply Forall_fires; split; [reflexivity | simpl; lia]).
  - apply Forall_map_filter. intros k. split; [reflexivity | simpl; lia].
  - destruct (links_present _); [|constructor].
    repeat (apply Forall_app; split);
      try (apply Forall_fires; split; [reflexivity | simpl; lia]).
    apply Forall_map_filter. intros b. split; [reflexivity | simpl; lia].
Qed.

Lemma web_tags_sublist r : tags (rule_firings r) `sublist_of` rule_tags.
Proof.
  change rule_tags with
    (List.map keyword_tag KEYWORDS
     ++ ["Has attachment"]
     ++ (["HTTP link (not HTTPS)"] ++ ["Link domain differs from sender domain"]
         ++ List.map (fun b => brand_tag (fst b)) BRANDS)
     ++ ["Possible lookalike pattern"])%list.
  unfold rule_firings. rewrite !tags_app.
  repeat apply sublist_app; try apply sublist_fires.
  - unfold keyword_firings, tags. rewrite List.map_map.
    exact (sublist_map_filter keyword_tag _ _).
  - unfold link_firings. destruct (links_present _); [|apply sublist_nil_l].
    rewrite !tags_app. repeat apply sublist_app; try apply sublist_fires.
    unfold brand_firings, tags. rewrite List.map_map.
    exact (sublist_map_filter (fun b => brand_tag (fst b)) _ _).
Qed.

End WebDeltas.

(** What both profiles return, in one place. *)
Lemma main_score_facts (r : row) :
  exists s rs, fst (Main.score_email r) = Return (s, rs)
    /\ rs = tags (MainRules.rule_firings r)
    /\ 0 <= s
    /\ s = sum_deltas MainRules.delta_of_reason rs
    /\ rs `sublist_of` MainRules.rule_tags.
Proof.
  rewrite main_score_email_eq. do 2 eexists. split; [reflexivity|]. split; [reflexivity|].
  pose proof (main_firings_sound r) as H.
  split; [|split].
  - apply total_nonneg. eapply Forall_impl; [exact H|]. now intros f [_ ?].
  - apply total_sum_deltas. eapply Forall_impl; [exact H|]. now intros f [? _].
  - apply main_tags_sublist.
Qed.

Lemma web_score_facts (r : row) :
  exists s rs, fst (Web.score_email r) = Return (s, rs)
    /\ rs = tags (WebRules.rule_firings r)
    /\ 0 <= s
    /\ s = sum_deltas WebRules.delta_of_reason rs
    /\ rs `sublist_of` WebRules.rule_tags.
Proof.
  rewrite web_score_email_eq. do 2 eexists. split; [reflexivity|]. split; [reflexivity|].
  pose proof (web_firings_sound r) as H.
  split; [|split].
  - apply total_nonneg. eapply Forall_impl; [exact H|]. now intros f [_ ?].
  - apply total_sum_deltas. eapply Forall_impl; [exact H|]. now intros f [? _].
  - apply web_tags_sublist.
Qed.

Lemma main_rule_tags_NoDup : NoDup MainRules.rule_tags.
Proof. decide_closed. Qed.

Lemma web_rule_tags_NoDup : NoDup WebRules.rule_tags.
Proof. decide_closed. Qed.

(** ** The specification, claim by claim *)

(** C1. For every record, [score_email] returns a score that is at least 0
    and is the sum of the fixed deltas of the reasons it returns; no delta is
    negative, no reason is returned twice, and the reasons come in
    rule-evaluation order: they are a subsequence of the profile's reasons
    listed in the order its rules are evaluated.  Both profiles. *)
Theorem score_is_sum_of_reason_deltas (r : row) :
  (exists s rs, fst (Main.score_email r) = Return (s, rs)
     /\ 0 <= s
     /\ s = sum_deltas MainRules.delta_of_reason rs
     /\ Forall (fun tag => 0 <= MainRules.delta_of_reason tag) rs
     /\ NoDup rs
     /\ rs `sublist_of` MainRules.rule_tags)
  /\ (exists s rs, fst (Web.score_email r) = Return (s, rs)
     /\ 0 <= s
     /\ s = sum_deltas WebRules.delta_of_reason rs
     /\ Forall (fun tag => 0 <= WebRules.delta_of_reason tag) rs
     /\ NoDup rs
     /\ rs `sublist_of` WebRules.rule_tags).
Proof.
  split.
  - destruct (main_score_facts r) as (s & rs & E & Hrs & H0 & Hsum & Hsub).
    exists s, rs. repeat split; try assumption.
    + subst rs. unfold tags. apply Forall_forall. intros tag Hin.
      apply list_elem_of_In, in_map_iff in Hin as (f & <- & Hf).
      pose proof (main_firings_sound r) as H. rewrite Forall_forall in H.
      apply list_elem_of_In in Hf. destruct (H f Hf) as [<- ?]. assumption.
    + eapply sublist_NoDup; [apply main_rule_tags_NoDup | exact Hsub].
  - destruct (web_score_facts r) as (s & rs & E & Hrs & H0 & Hsum & Hsub).
    exists s, rs. repeat split; try assumption.
    + subst rs. unfold tags. apply Forall_forall. intros tag Hin.
      apply list_elem_of_In, in_map_iff in Hin as (f & <- & Hf).
      pose proof (web_firings_sound r) as H. rewrite Forall_forall in H.
      apply list_elem_of_In in Hf. destruct (H f Hf) as [<- ?]. assumption.
    + eapply sublist_NoDup; [apply web_rule_tags_NoDup | exact Hsub].
Qed.

(** ** Counting reasons *)

Section Counting.

Lemma append_inj_l p a b : p +:+ a = p +:+ b -> a = b.
Proof.
  induction p as [|c p IH]; intros H; [exact H|].
  apply IH. change (String c (p +:+ a) = String c (p +:+ b)) in H. congruence.
Qed.

Lemma length_append (a b : string) :
  String.length (a +:+ b) = (String.length a + String.length b)%nat.
Proof.
  induction a as [|c a IH]; [reflexivity|].
  change (S (String.length (a +:+ b)) = S (String.length a + String.length b)). now rewrite IH.
Qed.

Lemma append_inj_r a b q : a +:+ q = b +:+ q -> a = b.
Proof.
  intros H.
  assert (Hlen : String.length a = String.length b).
  { apply (f_equal String.length) in H. rewrite !length_append in H. lia. }
  revert b H Hlen. induction a as [|c a IH]; intros [|d b] H Hlen; try discriminate.
  - reflexivity.
  - change (String c (a +:+ q) = String d (b +:+ q)) in H.
    injection H as -> H. f_equal. apply IH; [exact H | simpl in Hlen; lia].
Qed.

(** In a loop over [l] that appends [g x] when [p x], an entry of [l] whose
    tag no other entry shares is appended once when [p] holds of it, and
    not at all otherwise. *)
Lemma count_occ_map_filter {A} (g : A -> string) (p : A -> bool) (l : list A) (x : A) :
  NoDup (List.map g l) -> In x l ->
  count_occ string_dec (List.map g (List.filter p l)) (g x) = if p x then 1%nat else 0%nat.
Proof.
  induction l as [|y l IH]; simpl; intros Hnd Hin; [contradiction|].
  apply NoDup_cons in Hnd as [Hy Hnd].
  assert (Hcount : forall z, g z = g y -> count_occ string_dec (List.map g (List.filter p l)) (g z) = 0%nat).
  { intros z Hz. apply count_occ_not_In. intros Hin'. apply Hy.
    rewrite <- Hz. apply list_elem_of_In.
    apply in_map_iff in Hin' as (w & <- & Hw). apply filter_In in Hw as [Hw _].
    apply in_map_iff. now exists w. }
  destruct Hin as [-> | Hin].
  - destruct (p x); simpl.
    + destruct (string_dec (g x) (g x)); [|congruence]. now rewrite Hcount.
    + now apply Hcount.
  - assert (Hne : g y <> g x).
    { intros E. apply Hy. rewrite E. apply list_elem_of_In. apply in_map_iff. now exists x. }
    destruct (p y); simpl.
    + destruct (string_dec (g y) (g x)); [congruence|]. now apply IH.
    + now apply IH.
Qed.

(** A tag that [q] singles out does not occur among tags [q] rejects. *)
Lemma count_occ_rejected (q : string -> bool) (l : list string) (tag : string) :
  q tag = true -> Forall (fun t => q t = false) l -> count_occ string_dec l tag = 0%nat.
Proof.
  intros Hq Hl. apply count_occ_not_In. intros Hin.
  rewrite Forall_forall in Hl. specialize (Hl tag).
  rewrite Hl in Hq; [discriminate|]. now apply list_elem_of_In.
Qed.

Lemma count_occ_fires (b : bool) delta tag :
  count_occ string_dec (tags (fires b delta tag)) tag = if b then 1%nat else 0%nat.
Proof.
  destruct b; simpl; [|reflexivity]. destruct (string_dec tag tag); congruence.
Qed.

Lemma count_occ_single (a b : string) :
  count_occ string_dec [a] b = if string_dec a b then 1%nat else 0%nat.
Proof. reflexivity. Qed.

Lemma filter_all_false {A} (q : A -> bool) (l : list A) :
  Forall (fun t => q t = false) l -> List.filter q l = [].
Proof. induction 1 as [|t l Ht _ IH]; simpl; [reflexivity | now rewrite Ht]. Qed.

Lemma filter_all_true {A} (q : A -> bool) (l : list A) :
  Forall (fun t => q t = true) l -> List.filter q l = l.
Proof. induction 1 as [|t l Ht _ IH]; simpl; [reflexivity | now rewrite Ht, IH]. Qed.

Lemma Forall_tags_fires (P : string -> Prop) (b : bool) delta tag :
  P tag -> Forall P (tags (fires b delta tag)).
Proof. intros H. destruct b; simpl; repeat constructor; exact H. Qed.

Lemma total_map_const {A} (d : Z) (g : A -> string) (l : list A) :
  total (List.map (fun x => (d, g x)) l) = d * Z.of_nat (List.length l).
Proof. induction l as [|x l IH]; simpl total; [simpl; lia|]. rewrite IH. simpl List.length. lia. Qed.

End Counting.

Section MainTags.
Import PyStr Main MainRules.

Lemma main_keyword_tags r :
  tags (keyword_firings r)
  = List.map keyword_tag (List.filter (fun kw => contains kw (text_of r)) SUSPICIOUS_KEYWORDS).
Proof. unfold keyword_firings, tags. now rewrite List.map_map. Qed.

Lemma main_keyword_tags_Forall (P : string -> Prop) r :
  (forall kw, P (keyword_tag kw)) -> Forall P (tags (keyword_firings r)).
Proof. intros H. rewrite main_keyword_tags. now apply Forall_map_filter. Qed.

Lemma main_brand_tags_Forall (P : string -> Prop) r :
  (forall b, P (brand_tag b)) -> Forall P (tags (brand_firings r)).
Proof.
  intros H. destruct (main_brand_firings_cases r) as [-> | [b ->]]; repeat constructor.
  apply H.
Qed.

Lemma main_link_tags_Forall (P : string -> Prop) r :
  P "link:http" -> P "link_domain_mismatch" -> (forall b, P (brand_tag b)) ->
  P "lookalike_hint" -> Forall P (tags (link_firings r)).
Proof.
  intros H1 H2 H3 H4. unfold link_firings. destruct (links_present _); [|constructor].
  rewrite !tags_app. repeat (apply Forall_app; split);
    auto using Forall_tags_fires, main_brand_tags_Forall.
Qed.

Lemma main_attachment_tags_Forall (P : string -> Prop) r :
  P "has_attachment" -> P "risky_attachment_type" -> Forall P (tags (attachment_firings r)).
Proof.
  intros H1 H2. unfold attachment_firings. destruct (has_attachment r); [|constructor].
  constructor; [exact H1 | now apply Forall_tags_fires].
Qed.

Lemma main_keywords_NoDup : NoDup (List.map keyword_tag SUSPICIOUS_KEYWORDS).
Proof. decide_closed. Qed.

Lemma main_brands_NoDup : NoDup (List.map brand_tag BRAND_KEYWORDS).
Proof. decide_closed. Qed.

Lemma existsb_eqb_In (w : string) (l : list string) :
  existsb (String.eqb w) l = true <-> In w l.
Proof.
  rewrite existsb_exists. split.
  - intros (x & Hx & E). apply String.eqb_eq in E. now subst.
  - intros H. exists w. split; [exact H | apply String.eqb_refl].
Qed.

End MainTags.

Section BrandCounts.
Import PyStr.

Lemma web_keyword_tags r :
  tags (WebRules.keyword_firings r)
  = List.map WebRules.keyword_tag
      (List.filter (fun k => contains k (WebRules.blob_of r)) Web.KEYWORDS).
Proof. unfold WebRules.keyword_firings, tags. now rewrite List.map_map. Qed.

Lemma web_brand_tags r :
  tags (WebRules.brand_firings r)
  = List.map (fun b => WebRules.brand_tag (fst b))
      (List.filter (WebRules.brand_mismatch r) Web.BRANDS).
Proof. unfold WebRules.brand_firings, tags. now rewrite List.map_map. Qed.

Lemma web_keyword_tags_Forall (P : string -> Prop) r :
  (forall k, P (WebRules.keyword_tag k)) -> Forall P (tags (WebRules.keyword_firings r)).
Proof. intros H. rewrite web_keyword_tags. now apply Forall_map_filter. Qed.

Lemma web_brand_tags_Forall (P : string -> Prop) r :
  (forall b, P (WebRules.brand_tag b)) -> Forall P (tags (WebRules.brand_firings r)).
Proof. intros H. rewrite web_brand_tags. apply Forall_map_filter. intros b. apply H. Qed.

Lemma count_occ_brand_main r (brand : string) :
  count_occ string_dec (tags (MainRules.rule_firings r)) (MainRules.brand_tag brand)
  = if links_present (links_of r)
    then count_occ string_dec (tags (MainRules.brand_firings r)) (MainRules.brand_tag brand)
    else 0%nat.
Proof.
  pose (q := startswith "brand_domain_mismatch:").
  assert (Hq : q (MainRules.brand_tag brand) = true) by apply startswith_app.
  unfold MainRules.rule_firings. rewrite !tags_app, !count_occ_app.
  rewrite (count_occ_rejected q (tags (MainRules.keyword_firings r)) _ Hq)
    by (apply main_keyword_tags_Forall; reflexivity).
  rewrite (count_occ_rejected q (tags (MainRules.attachment_firings r)) _ Hq)
    by (apply main_attachment_tags_Forall; reflexivity).
  unfold MainRules.link_firings. destruct (links_present (links_of r)); [|reflexivity].
  rewrite !tags_app, !count_occ_app.
  rewrite !(count_occ_rejected q (tags (fires _ _ _)) _ Hq)
    by (apply Forall_tags_fires; reflexivity).
  lia.
Qed.

Lemma count_occ_brand_web r (b : string * list string) :
  In b Web.BRANDS ->
  count_occ string_dec (tags (WebRules.rule_firings r)) (WebRules.brand_tag (fst b))
  = if links_present (links_of r) && WebRules.brand_mismatch r b then 1%nat else 0%nat.
Proof.
  intros Hb.
  pose (q := startswith "Brand/domain mismatch: ").
  assert (Hq : q (WebRules.brand_tag (fst b)) = true) by apply startswith_app.
  unfold WebRules.rule_firings. rewrite !tags_app, !count_occ_app.
  rewrite (count_occ_rejected q (tags (WebRules.keyword_firings r)) _ Hq)
    by (apply web_keyword_tags_Forall; reflexivity).
  rewrite !(count_occ_rejected q (tags (fires _ _ _)) _ Hq)
    by (apply Forall_tags_fires; reflexivity).
  unfold WebRules.link_firings. destruct (links_present (links_of r)); [|reflexivity].
  rewrite !tags_app, !count_occ_app.
  rewrite !(count_occ_rejected q (tags (fires _ _ _)) _ Hq)
    by (apply Forall_tags_fires; reflexivity).
  rewrite web_brand_tags.
  rewrite (count_occ_map_filter (fun b => WebRules.brand_tag (fst b)) (WebRules.brand_mismatch r)
             Web.BRANDS b); [simpl; lia | | exact Hb].
  decide_closed.
Qed.

End BrandCounts.

(** C4, as the code has it.  For every record and every word [w]:
    [score_email] of [main.py] appends [keyword:w] once when [w] is a
    configured suspicious keyword that occurs in the lower-cased subject, a
    space and the lower-cased body, and never otherwise; [score_email] of
    [web.py] appends [Keyword match: 'w'] once when [w] is one of its
    keywords and occurs in the lower-cased sender, a space, the lower-cased
    subject, a space and the lower-cased body, and never otherwise.  In both
    the reason's delta is 2, and the score is 2 for each matching keyword
    plus the deltas of the reasons that are not keyword reasons. *)
Theorem keyword_rule_by_profile (r : row) (w : string) :
  (let text := PyStr.lower (field r "subject") +:+ " " +:+ PyStr.lower (field r "body") in
   exists s rs, fst (Main.score_email r) = Return (s, rs)
     /\ count_occ string_dec rs ("keyword:" +:+ w)
        = (if existsb (String.eqb w) Main.SUSPICIOUS_KEYWORDS && PyStr.contains w text
           then 1 else 0)%nat
     /\ MainRules.delta_of_reason ("keyword:" +:+ w) = 2
     /\ s = 2 * Z.of_nat (List.length (List.filter (fun kw => PyStr.contains kw text)
                                                    Main.SUSPICIOUS_KEYWORDS))
            + sum_deltas MainRules.delta_of_reason
                (List.filter (fun tag => negb (PyStr.startswith "keyword:" tag)) rs))
  /\ (let blob := PyStr.lower (field r "sender") +:+ " " +:+ PyStr.lower (field r "subject")
                  +:+ " " +:+ PyStr.lower (field r "body") in
      exists s rs, fst (Web.score_email r) = Return (s, rs)
        /\ count_occ string_dec rs ("Keyword match: '" +:+ w +:+ "'")
           = (if existsb (String.eqb w) Web.KEYWORDS && PyStr.contains w blob
              then 1 else 0)%nat
        /\ WebRules.delta_of_reason ("Keyword match: '" +:+ w +:+ "'") = 2
        /\ s = 2 * Z.of_nat (List.length (List.filter (fun k => PyStr.contains k blob)
                                                       Web.KEYWORDS))
               + sum_deltas WebRules.delta_of_reason
                   (List.filter (fun tag => negb (PyStr.startswith "Keyword match: '" tag)) rs)).
Proof.
  split.
  - intros text. rewrite main_score_email_eq. do 2 eexists. split; [reflexivity|].
    change text with (MainRules.text_of r). clear text.
    assert (Hrest : Forall (fun t => PyStr.startswith "keyword:" t = false)
                           (tags (MainRules.link_firings r ++ MainRules.attachment_firings r))).
    { rewrite tags_app. apply Forall_app. split.
      - apply main_link_tags_Forall; reflexivity.
      - apply main_attachment_tags_Forall; reflexivity. }
    unfold MainRules.rule_firings. rewrite tags_app, total_app.
    split; [|split].
    + rewrite count_occ_app.
      rewrite (count_occ_rejected (PyStr.startswith "keyword:") _ ("keyword:" +:+ w)
                 (startswith_app "keyword:" w) Hrest), Nat.add_0_r.
      rewrite main_keyword_tags.
      destruct (existsb (String.eqb w) Main.SUSPICIOUS_KEYWORDS) eqn:Hw; simpl andb.
      * apply existsb_eqb_In in Hw.
        exact (count_occ_map_filter MainRules.keyword_tag
                 (fun kw => PyStr.contains kw (MainRules.text_of r)) _ w main_keywords_NoDup Hw).
      * apply count_occ_not_In. intros Hin.
        apply in_map_iff in Hin as (kw & E & Hkw). apply append_inj_l in E. subst kw.
        apply filter_In in Hkw as [Hkw _]. apply existsb_eqb_In in Hkw. congruence.
    + reflexivity.
    + rewrite List.filter_app.
      rewrite (filter_all_false (fun tag => negb (PyStr.startswith "keyword:" tag))
                 (tags (MainRules.keyword_firings r))).
      2:{ apply main_keyword_tags_Forall. reflexivity. }
      rewrite (filter_all_true (fun tag => negb (PyStr.startswith "keyword:" tag))).
      2:{ eapply Forall_impl; [exact Hrest|]. now intros t ->. }
      simpl app. f_equal.
      * unfold MainRules.keyword_firings. apply total_map_const.
      * apply total_sum_deltas.
        pose proof (main_firings_sound r) as H. unfold MainRules.rule_firings in H.
        apply Forall_app in H as [_ H].
        eapply Forall_impl; [exact H|]. now intros f [? _].
  - intros blob. rewrite web_score_email_eq. do 2 eexists. split; [reflexivity|].
    change blob with (WebRules.blob_of r). clear blob.
    change ("Keyword match: '" +:+ w +:+ "'") with (WebRules.keyword_tag w).
    set (q := PyStr.startswith "Keyword match: '").
    assert (Hq : q (WebRules.keyword_tag w) = true) by apply startswith_app.
    set (others := (fires (WebRules.has_attachment r) 2 "Has attachment"
                    ++ WebRules.link_firings r
                    ++ fires (WebRules.lookalike r) 1 "Possible lookalike pattern")%list).
    assert (Hrest : Forall (fun t => q t = false) (tags others)).
    { unfold others. rewrite !tags_app. repeat (apply Forall_app; split);
        try (apply Forall_tags_fires; reflexivity).
      unfold WebRules.link_firings.
      destruct (links_present (links_of r)); [|constructor].
      rewrite !tags_app. repeat (apply Forall_app; split);
        try (apply Forall_tags_fires; reflexivity).
      apply web_brand_tags_Forall; reflexivity. }
    change (WebRules.rule_firings r) with (WebRules.keyword_firings r ++ others)%list.
    rewrite tags_app, total_app.
    split; [|split].
    + rewrite count_occ_app, (count_occ_rejected q _ _ Hq Hrest), Nat.add_0_r.
      rewrite web_keyword_tags.
      destruct (existsb (String.eqb w) Web.KEYWORDS) eqn:Hw; simpl andb.
      * apply existsb_eqb_In in Hw.
        refine (count_occ_map_filter WebRules.keyword_tag
                  (fun k => PyStr.contains k (WebRules.blob_of r)) _ w _ Hw).
        decide_closed.
      * apply count_occ_not_In. intros Hin.
        apply in_map_iff in Hin as (k & E & Hk).
        apply append_inj_l, append_inj_r in E. subst k.
        apply filter_In in Hk as [Hk _]. apply existsb_eqb_In in Hk. congruence.
    + reflexivity.
    + rewrite List.filter_app.
      rewrite (filter_all_false (fun tag => negb (q tag)) (tags (WebRules.keyword_firings r))).
      2:{ apply web_keyword_tags_Forall. intros k. unfold q, WebRules.keyword_tag.
          now rewrite startswith_app. }
      rewrite (filter_all_true (fun tag => negb (q tag))).
      2:{ eapply Forall_impl; [exact Hrest|]. now intros t ->. }
      simpl app. f_equal.
      * unfold WebRules.keyword_firings. apply total_map_const.
      * apply total_sum_deltas.
        pose proof (web_firings_sound r) as H.
        change (WebRules.rule_firings r) with (WebRules.keyword_firings r ++ others)%list in H.
        apply Forall_app in H as [_ H].
        eapply Forall_impl; [exact H|]. now intros f [? _].
Qed.

(** C4 as it was worded fails in [web.py]: "secure" is one of its keywords and
    stands nowhere in the subject and the body of this record, and yet the
    record gets 2 points for it, the word being in the sender; the reason
    reads [Keyword match: 'secure'], not [keyword:secure].  [main.py] gives
    the record nothing. *)
Lemma keyword_in_sender_counts_in_web :
  let r := row_of [("sender", "secure@x.com"); ("subject", "Lunch"); ("body", "At noon?")] in
  let text := PyStr.lower (field r "subject") +:+ " " +:+ PyStr.lower (field r "body") in
  In "secure" Web.KEYWORDS
  /\ PyStr.contains "secure" text = false
  /\ fst (Web.score_email r) = Return (2, ["Keyword match: 'secure'"])
  /\ fst (Main.score_email r) = Return (0, []).
Proof.
  cbv zeta. split; [|split; [|split]]; [|vm_compute; reflexivity ..].
  apply existsb_eqb_In. vm_compute. reflexivity.
Qed.

(** C2, as the code has it.  A brand reason is appended, with delta 3,
    exactly when the trimmed links field is non-empty and not "none" and: in
    [main.py], the brand is the first configured brand that occurs in the
    sender and not in the sender's domain; in [web.py], the brand occurs in
    the sender, the subject or the body and none of its legitimate domains
    occurs in the sender. *)
Theorem brand_rule_needs_link (r : row) :
  (exists s rs, fst (Main.score_email r) = Return (s, rs)
     /\ s = sum_deltas MainRules.delta_of_reason rs
     /\ forall brand,
          MainRules.delta_of_reason ("brand_domain_mismatch:" +:+ brand) = 3
          /\ (In ("brand_domain_mismatch:" +:+ brand) rs <->
              links_present (links_of r) = true
              /\ List.find (fun b => PyStr.contains b (sender_of r)
                                      && negb (PyStr.contains b (MainRules.sender_domain_of r)))
                           Main.BRAND_KEYWORDS = Some brand))
  /\ (exists s rs, fst (Web.score_email r) = Return (s, rs)
     /\ s = sum_deltas WebRules.delta_of_reason rs
     /\ Forall (fun b : string * list string =>
          WebRules.delta_of_reason ("Brand/domain mismatch: " +:+ fst b) = 3
          /\ (In ("Brand/domain mismatch: " +:+ fst b) rs <->
              links_present (links_of r) = true
              /\ PyStr.contains (fst b) (sender_of r) || PyStr.contains (fst b) (subject_of r)
                 || PyStr.contains (fst b) (body_of r) = true
              /\ existsb (fun d => PyStr.contains d (sender_of r)) (snd b) = false))
          Web.BRANDS).
Proof.
  destruct (main_score_facts r) as (s1 & rs1 & E1 & _ & _ & Hs1 & _).
  destruct (web_score_facts r) as (s2 & rs2 & E2 & _ & _ & Hs2 & _).
  split.
  - exists s1, rs1. split; [exact E1|]. split; [exact Hs1|].
    rewrite main_score_email_eq in E1. injection E1 as _ <-.
    intros brand. split; [reflexivity|].
    change ("brand_domain_mismatch:" +:+ brand) with (MainRules.brand_tag brand).
    rewrite (count_occ_In string_dec), count_occ_brand_main.
    destruct (links_present (links_of r)); [|split; [simpl; lia | intros [? _]; discriminate]].
    unfold MainRules.brand_firings.
    change (MainRules.brand_mismatch (sender_of r) (MainRules.sender_domain_of r))
      with (fun b => PyStr.contains b (sender_of r)
                     && negb (PyStr.contains b (MainRules.sender_domain_of r))).
    destruct (List.find _ _) as [b|].
    + change (tags [(3, MainRules.brand_tag b)]) with [MainRules.brand_tag b].
      rewrite count_occ_single.
      destruct (string_dec (MainRules.brand_tag b) (MainRules.brand_tag brand)) as [E|E].
      * apply append_inj_l in E. subst b. split; [auto | lia].
      * split; [lia | intros [_ [= ->]]; congruence].
    + change (tags []) with (@nil string). rewrite count_occ_nil.
      split; [lia | intros [_ ?]; discriminate].
  - exists s2, rs2. split; [exact E2|]. split; [exact Hs2|].
    rewrite web_score_email_eq in E2. injection E2 as _ <-.
    apply Forall_forall. intros b Hb. apply list_elem_of_In in Hb.
    split; [reflexivity|].
    change ("Brand/domain mismatch: " +:+ fst b) with (WebRules.brand_tag (fst b)).
    rewrite (count_occ_In string_dec), (count_occ_brand_web r b Hb).
    unfold WebRules.brand_mismatch, WebRules.brand_mentioned, WebRules.legit_sender.
    destruct (links_present (links_of r)); simpl andb;
      [|split; [lia | intros [? _]; discriminate]].
    destruct (PyStr.contains (fst b) (sender_of r) || PyStr.contains (fst b) (subject_of r)
              || PyStr.contains (fst b) (body_of r)); simpl andb;
      [|split; [lia | intros (_ & ? & _); discriminate]].
    destruct (existsb _ (snd b)); simpl;
      [split; [lia | intros (_ & _ & ?); discriminate] | split; [auto | lia]].
Qed.

(** C2 as stated fails.  A sender that names a brand its domain lacks, in a
    record with no link, gets no brand reason and no points in either
    profile; and with a link, [main.py] gives the reason to the first such
    brand only. *)
Lemma brand_rule_silent_without_link :
  let r := row_of [("sender", "paypal@evil.com")] in
  let r' := row_of [("sender", "amazon-paypal@evil.com"); ("links", "https://evil.com/")] in
  In "paypal" Main.BRAND_KEYWORDS
  /\ PyStr.contains "paypal" (sender_of r) = true
  /\ PyStr.contains "paypal" (MainRules.sender_domain_of r) = false
  /\ fst (Main.score_email r) = Return (0, [])
  /\ In ("paypal", ["paypal.com"]) Web.BRANDS
  /\ existsb (fun d => PyStr.contains d (sender_of r)) ["paypal.com"] = false
  /\ fst (Web.score_email r) = Return (0, [])
  /\ PyStr.contains "paypal" (sender_of r') = true
  /\ PyStr.contains "paypal" (MainRules.sender_domain_of r') = false
  /\ fst (Main.score_email r') = Return (3, ["brand_domain_mismatch:amazon"]).
Proof.
  cbv zeta. repeat split; try (vm_compute; reflexivity).
  - right; left; reflexivity.
  - right; left; reflexivity.
Qed.


(** The two profiles on one record: the sender names two brands its domain
    lacks. *)
Example brand_profiles_differ :
  let r := row_of [("sender", "amazon-paypal@evil.com"); ("links", "https://evil.com/")] in
  fst (Main.score_email r) = Return (3, ["brand_domain_mismatch:amazon"])
  /\ fst (Web.score_email r)
     = Return (6, ["Brand/domain mismatch: amazon"; "Brand/domain mismatch: paypal"]).
Proof. cbv zeta. split; vm_compute; reflexivity. Qed.

Section Lookalike.
Import PyStr.

Lemma contains_nonempty_in_empty c p : contains (String c p) "" = false.
Proof. reflexivity. Qed.

Lemma contains_and_truthy c p s : contains (String c p) s && truthy s = contains (String c p) s.
Proof. destruct s; [reflexivity | apply andb_true_r]. Qed.

Lemma truthy_or_empty s : (if truthy s then s else "") = s.
Proof. now destruct s. Qed.

Lemma existsb_orb {A} (f g : A -> bool) (l : list A) :
  existsb f l || existsb g l = existsb (fun x => f x || g x) l.
Proof.
  induction l as [|x l IH]; simpl; [reflexivity|].
  rewrite <- IH. destruct (f x), (g x), (existsb f l), (existsb g l); reflexivity.
Qed.

Lemma main_lookalike_eq r :
  MainRules.lookalike r
  = contains "0" (links_of r) || contains "-" (MainRules.link_domain_of r).
Proof. unfold MainRules.lookalike. now rewrite contains_and_truthy. Qed.

Lemma web_lookalike_eq r :
  WebRules.lookalike r
  = existsb (fun x => contains x (lower (sender_of r)) || contains x (lower (links_of r)))
            ["0"; "1"; "secure-"; "-secure"; "login-"; "-login"].
Proof.
  unfold WebRules.lookalike, Web.lookalike_hint.
  rewrite !truthy_or_empty. apply existsb_orb.
Qed.

End Lookalike.

(** C3, as the code has it.  [main.py] fires the lookalike rule (delta 1,
    the tag appended once) exactly when the trimmed links field is non-empty
    and not "none" and the link string contains the character 0 or the link
    domain contains a hyphen.  [web.py] fires it exactly when the lower-cased
    sender or link string contains one of "0", "1", "secure-", "-secure",
    "login-", "-login". *)
Theorem lookalike_rule_by_profile (r : row) :
  (exists s rs, fst (Main.score_email r) = Return (s, rs)
     /\ s = sum_deltas MainRules.delta_of_reason rs
     /\ MainRules.delta_of_reason "lookalike_hint" = 1
     /\ count_occ string_dec rs "lookalike_hint"
        = if links_present (links_of r)
             && (PyStr.contains "0" (links_of r)
                 || PyStr.contains "-" (MainRules.link_domain_of r))
          then 1%nat else 0%nat)
  /\ (exists s rs, fst (Web.score_email r) = Return (s, rs)
     /\ s = sum_deltas WebRules.delta_of_reason rs
     /\ WebRules.delta_of_reason "Possible lookalike pattern" = 1
     /\ count_occ string_dec rs "Possible lookalike pattern"
        = if existsb (fun x => PyStr.contains x (PyStr.lower (sender_of r))
                               || PyStr.contains x (PyStr.lower (links_of r)))
                     ["0"; "1"; "secure-"; "-secure"; "login-"; "-login"]
          then 1%nat else 0%nat).
Proof.
  destruct (main_score_facts r) as (s1 & rs1 & E1 & _ & _ & Hs1 & _).
  destruct (web_score_facts r) as (s2 & rs2 & E2 & _ & _ & Hs2 & _).
  split.
  - exists s1, rs1. split; [exact E1|]. split; [exact Hs1|]. split; [reflexivity|].
    rewrite main_score_email_eq in E1. injection E1 as _ <-.
    set (q := String.eqb "lookalike_hint").
    assert (Hq : q "lookalike_hint" = true) by reflexivity.
    unfold MainRules.rule_firings. rewrite !tags_app, !count_occ_app.
    rewrite (count_occ_rejected q (tags (MainRules.keyword_firings r)) _ Hq)
      by (apply main_keyword_tags_Forall; reflexivity).
    rewrite (count_occ_rejected q (tags (MainRules.attachment_firings r)) _ Hq)
      by (apply main_attachment_tags_Forall; reflexivity).
    unfold MainRules.link_firings. rewrite <- main_lookalike_eq.
    destruct (links_present (links_of r)); [|reflexivity].
    rewrite !tags_app, !count_occ_app.
    rewrite (count_occ_rejected q (tags (fires (MainRules.http_link r) _ _)) _ Hq)
      by (apply Forall_tags_fires; reflexivity).
    rewrite (count_occ_rejected q (tags (fires (MainRules.domains_differ r) _ _)) _ Hq)
      by (apply Forall_tags_fires; reflexivity).
    rewrite (count_occ_rejected q (tags (MainRules.brand_firings r)) _ Hq)
      by (apply main_brand_tags_Forall; reflexivity).
    rewrite count_occ_fires. cbn [andb]. lia.
  - exists s2, rs2. split; [exact E2|]. split; [exact Hs2|]. split; [reflexivity|].
    rewrite web_score_email_eq in E2. injection E2 as _ <-.
    set (q := String.eqb "Possible lookalike pattern").
    assert (Hq : q "Possible lookalike pattern" = true) by reflexivity.
    rewrite <- web_lookalike_eq.
    unfold WebRules.rule_firings. rewrite !tags_app, !count_occ_app.
    rewrite (count_occ_rejected q (tags (WebRules.keyword_firings r)) _ Hq)
      by (apply web_keyword_tags_Forall; reflexivity).
    rewrite (count_occ_rejected q (tags (fires (WebRules.has_attachment r) _ _)) _ Hq)
      by (apply Forall_tags_fires; reflexivity).
    rewrite count_occ_fires.
    assert (Hl : count_occ string_dec (tags (WebRules.link_firings r))
                   "Possible lookalike pattern" = 0%nat).
    { apply (count_occ_rejected q _ _ Hq). unfold WebRules.link_firings.
      destruct (links_present (links_of r)); [|constructor].
      rewrite !tags_app. repeat (apply Forall_app; split);
        try (apply Forall_tags_fires; reflexivity).
      apply web_brand_tags_Forall; reflexivity. }
    rewrite Hl. lia.
Qed.

(** C3 as stated fails, in each of its parts.  A link with the digit 2 in
    it fires the rule in neither profile; a sender with "login-" in it and no
    link does not fire it in [main.py]; a hyphen in the link domain does not
    fire it in [web.py]; and a digit 1 in the sender, with no link and none of
    the four patterns, fires it in [web.py]. *)
Lemma lookalike_rule_ignores_other_digits :
  let r1 := row_of [("links", "https://a.com/2")] in
  let r2 := row_of [("sender", "login-team@x.com")] in
  let r3 := row_of [("links", "https://my-site.com/")] in
  let r4 := row_of [("sender", "user1@x.com")] in
  (PyStr.contains "2" (links_of r1) = true
   /\ fst (Main.score_email r1) = Return (0, [])
   /\ fst (Web.score_email r1) = Return (0, []))
  /\ (PyStr.contains "login-" (sender_of r2) = true
      /\ fst (Main.score_email r2) = Return (0, []))
  /\ (PyStr.contains "-" (WebRules.link_domain_of r3) = true
      /\ fst (Web.score_email r3) = Return (0, []))
  /\ (links_of r4 = ""
      /\ existsb (fun x => PyStr.contains x (sender_of r4))
                 ["secure-"; "-secure"; "login-"; "-login"] = false
      /\ fst (Web.score_email r4) = Return (1, ["Possible lookalike pattern"])).
Proof. cbv zeta. repeat split; vm_compute; reflexivity. Qed.

(** ** Domain extraction *)

Section Domains.
Import PyStr.

Lemma append_assoc (a b c : string) : (a +:+ b) +:+ c = a +:+ (b +:+ c).
Proof.
  induction a as [|x a IH]; [reflexivity|].
  change (String x ((a +:+ b) +:+ c) = String x (a +:+ (b +:+ c))). now rewrite IH.
Qed.

Lemma lower_char_idem c : lower_char (lower_char c) = lower_char c.
Proof. destruct c as [[] [] [] [] [] [] [] []]; reflexivity. Qed.

Lemma is_space_lower_char c : is_space (lower_char c) = is_space c.
Proof. destruct c as [[] [] [] [] [] [] [] []]; reflexivity. Qed.

Lemma lower_idem s : lower (lower s) = lower s.
Proof. induction s as [|c s IH]; simpl; [reflexivity | now rewrite lower_char_idem, IH]. Qed.

Lemma lower_lstrip s : lower (lstrip_with is_space s) = lstrip_with is_space (lower s).
Proof.
  induction s as [|c s IH]; simpl; [reflexivity|].
  rewrite is_space_lower_char. now destruct (is_space c).
Qed.

Lemma lower_rstrip s : lower (rstrip_with is_space s) = rstrip_with is_space (lower s).
Proof.
  induction s as [|c s IH]; simpl; [reflexivity|].
  rewrite <- IH, is_space_lower_char.
  destruct (rstrip_with is_space s); simpl; [now destruct (is_space c) | reflexivity].
Qed.

(** Lower-casing and trimming commute. *)
Lemma lower_strip s : lower (strip s) = strip (lower s).
Proof. unfold strip. now rewrite lower_rstrip, lower_lstrip. Qed.

Lemma rstrip_idem p s : rstrip_with p (rstrip_with p s) = rstrip_with p s.
Proof.
  induction s as [|c s IH]; simpl; [reflexivity|].
  destruct (rstrip_with p s) as [|d r] eqn:E.
  - destruct (p c) eqn:Hc; simpl; [reflexivity | now rewrite Hc].
  - change (rstrip_with p (String c (String d r))) with
      (match rstrip_with p (String d r) with
       | EmptyString => if p c then EmptyString else String c EmptyString
       | x => String c x
       end).
    now rewrite IH.
Qed.

(** A string that does not start with a stripped character still does not
    after its end is stripped. *)
Lemma lstrip_rstrip p s :
  lstrip_with p s = s -> lstrip_with p (rstrip_with p s) = rstrip_with p s.
Proof.
  destruct s as [|c s]; simpl; [reflexivity|].
  destruct (p c) eqn:Hc.
  - intros H. exfalso.
    assert (Hlen : forall t, (String.length (lstrip_with p t) <= String.length t)%nat).
    { induction t as [|x t IHt]; simpl; [lia|]. destruct (p x); simpl; lia. }
    specialize (Hlen s). rewrite H in Hlen. simpl in Hlen. lia.
  - intros _. destruct (rstrip_with p s); simpl; now rewrite Hc.
Qed.

Lemma lstrip_idem p s : lstrip_with p (lstrip_with p s) = lstrip_with p s.
Proof.
  induction s as [|c s IH]; simpl; [reflexivity|].
  destruct (p c) eqn:Hc; [exact IH | simpl; now rewrite Hc].
Qed.

(** Trimming a trimmed string changes nothing. *)
Lemma strip_idem s : strip (strip s) = strip s.
Proof.
  unfold strip. rewrite (lstrip_rstrip is_space) by apply lstrip_idem.
  apply rstrip_idem.
Qed.


Lemma remove_char_app c a b : remove_char c (a +:+ b) = remove_char c a +:+ remove_char c b.
Proof.
  induction a as [|x a IH]; [reflexivity|].
  change (remove_char c (String x (a +:+ b)) = remove_char c (String x a) +:+ remove_char c b).
  simpl. rewrite IH. now destruct (Ascii.eqb x c).
Qed.

Lemma remove_unsafe_bytes_app a b :
  Urllib.remove_unsafe_bytes (a +:+ b)
  = Urllib.remove_unsafe_bytes a +:+ Urllib.remove_unsafe_bytes b.
Proof. unfold Urllib.remove_unsafe_bytes. now rewrite !remove_char_app. Qed.



End Domains.




(** C6. [domain_from_email] (the spec's [domain_from_address]) returns the
    empty string for an address without [@], and otherwise the text after the
    first [@], lower-cased and trimmed; it never raises. *)
Theorem domain_from_email_after_first_at :
  (forall email, exists d,
     Main.domain_from_email email = Return d
     /\ (PyStr.has_char "@" email = false -> d = "")
     /\ (forall pre post,
           PyStr.has_char "@" pre = false -> email = pre +:+ "@" +:+ post ->
           d = PyStr.strip (PyStr.lower post))
     /\ PyStr.lower d = d /\ PyStr.strip d = d)
  /\ Main.domain_from_email "a@B.COM" = Return "b.com"
  /\ Main.domain_from_email "no-at-sign" = Return "".
Proof.
  split; [|split; vm_compute; reflexivity].
  intros email. exists (MainRules.email_domain email).
  split; [apply domain_from_email_eq|].
  unfold MainRules.email_domain. rewrite contains_char_has_char.
  split; [|split; [|split]].
  - now intros ->.
  - intros pre post Hpre ->.
    change (pre +:+ "@" +:+ post) with (pre +:+ String "@" post).
    pose proof (partition_found "@" (pre +:+ String "@" post)) as Hf.
    rewrite (partition_app "@" pre post Hpre) in *. simpl in Hf. now rewrite <- Hf.
  - destruct (PyStr.has_char "@" email); [|reflexivity].
    now rewrite lower_strip, lower_idem.
  - destruct (PyStr.has_char "@" email); [|reflexivity]. apply strip_idem.
Qed.

(** C6 at a concrete address split at its first [@]. *)
Lemma domain_from_email_two_ats :
  exists d, Main.domain_from_email "Bob@Mail.Example.ORG @x" = Return d
            /\ d = "mail.example.org @x".
Proof.
  destruct (proj1 domain_from_email_after_first_at "Bob@Mail.Example.ORG @x")
    as (d & E & _ & H & _).
  exists d. split; [exact E|].
  apply (H "Bob" "Mail.Example.ORG @x"); reflexivity.
Defined.

(** ** Ranking *)

Section RankingFacts.
Context {record : Type} (score_of : record -> Z).

Abbreviation descending := (StronglySorted (fun a b : record => score_of b <= score_of a)).

Lemma insert_desc_perm x l : Permutation (insert_desc score_of x l) (x :: l).
Proof.
  induction l as [|y l IH]; simpl; [reflexivity|].
  destruct (score_of x <? score_of y); [|reflexivity].
  rewrite IH. apply perm_swap.
Qed.

Lemma sort_desc_perm l : Permutation (sort_desc score_of l) l.
Proof.
  induction l as [|x l IH]; simpl; [reflexivity|].
  rewrite insert_desc_perm. now constructor.
Qed.

Lemma insert_desc_sorted x l : descending l -> descending (insert_desc score_of x l).
Proof.
  induction 1 as [|y l Hl IH Hy]; simpl.
  - repeat constructor.
  - destruct (score_of x <? score_of y) eqn:E.
    + apply Z.ltb_lt in E. constructor; [exact IH|].
      rewrite (Forall_forall (fun b => score_of b <= score_of y)).
      intros z Hz. apply list_elem_of_In in Hz.
      apply (Permutation_in _ (insert_desc_perm x l)) in Hz as [<- | Hz]; [lia|].
      rewrite Forall_forall in Hy. apply Hy. now apply list_elem_of_In.
    + apply Z.ltb_ge in E. constructor; [now constructor|].
      constructor; [exact E|].
      eapply Forall_impl; [exact Hy|]. intros z Hz. simpl in Hz. lia.
Qed.

Lemma sort_desc_sorted l : descending (sort_desc score_of l).
Proof. induction l as [|x l IH]; simpl; [constructor | now apply insert_desc_sorted]. Qed.

(** Insertion keeps the records of each score in their order, the new one
    first. *)
Lemma scoring_insert_desc k x l : scoring score_of k (insert_desc score_of x l) = scoring score_of k (x :: l).
Proof.
  induction l as [|y l IH]; [reflexivity|].
  simpl insert_desc. destruct (score_of x <? score_of y) eqn:E; [|reflexivity].
  apply Z.ltb_lt in E. unfold scoring in *. simpl in *. rewrite IH.
  destruct (score_of x =? k) eqn:Ex, (score_of y =? k) eqn:Ey; try reflexivity.
  apply Z.eqb_eq in Ex, Ey. lia.
Qed.

(** The sort is stable: records of equal score keep their input order. *)
Lemma sort_desc_stable k l : scoring score_of k (sort_desc score_of l) = scoring score_of k l.
Proof.
  induction l as [|x l IH]; [reflexivity|].
  simpl sort_desc. rewrite scoring_insert_desc.
  unfold scoring in *. simpl. now rewrite IH.
Qed.

Lemma insert_desc_head x l :
  Forall (fun z => score_of z <= score_of x) l -> insert_desc score_of x l = x :: l.
Proof.
  intros H. destruct l as [|y l]; [reflexivity|]. simpl.
  apply Forall_cons in H as [Hy _].
  destruct (score_of x <? score_of y) eqn:E; [|reflexivity].
  apply Z.ltb_lt in E. lia.
Qed.

Lemma at_least_insert_desc T x l :
  descending l ->
  at_least score_of T (insert_desc score_of x l)
  = if T <=? score_of x then insert_desc score_of x (at_least score_of T l) else at_least score_of T l.
Proof.
  unfold at_least.
  induction 1 as [|y l Hl IH Hy]; simpl.
  - now destruct (T <=? score_of x).
  - destruct (score_of x <? score_of y) eqn:E.
    + simpl. rewrite IH.
      destruct (T <=? score_of x) eqn:Ex, (T <=? score_of y) eqn:Ey; simpl;
        rewrite ?E; reflexivity.
    + apply Z.ltb_ge in E. simpl.
      destruct (T <=? score_of x) eqn:Ex; [|reflexivity].
      symmetry. apply insert_desc_head.
      change (Forall (fun z => score_of z <= score_of x)
                     (List.filter (fun r => T <=? score_of r) (y :: l))).
      rewrite Forall_forall. intros z Hz. apply list_elem_of_In, filter_In in Hz as [Hz _].
      destruct Hz as [<- | Hz]; [exact E|].
      rewrite Forall_forall in Hy. specialize (Hy z). simpl in Hy.
      apply list_elem_of_In in Hz. specialize (Hy Hz). lia.
Qed.

(** Filtering the sorted list and sorting the filtered list agree. *)
Lemma at_least_sort_desc T l : at_least score_of T (sort_desc score_of l) = sort_desc score_of (at_least score_of T l).
Proof.
  induction l as [|x l IH]; [reflexivity|].
  simpl sort_desc. rewrite at_least_insert_desc by apply sort_desc_sorted.
  rewrite IH. unfold at_least. simpl.
  now destruct (T <=? score_of x).
Qed.

Lemma scoring_at_least k T l :
  scoring score_of k (at_least score_of T l) = if T <=? k then scoring score_of k l else [].
Proof.
  unfold scoring, at_least.
  induction l as [|x l IH]; simpl; [now destruct (T <=? k)|].
  destruct (T <=? score_of x) eqn:Ex, (score_of x =? k) eqn:Ek; simpl;
    rewrite ?Ek, IH; try reflexivity.
  - apply Z.eqb_eq in Ek. subst k. now rewrite Ex.
  - apply Z.eqb_eq in Ek. subst k. now rewrite Ex.
Qed.

Lemma at_least_sublist T l : at_least score_of T l `sublist_of` l.
Proof.
  unfold at_least. induction l as [|x l IH]; simpl; [constructor|].
  destruct (T <=? score_of x); [apply sublist_skip | apply sublist_cons]; exact IH.
Qed.

Lemma sorted_at_least T l : descending l -> descending (at_least score_of T l).
Proof.
  unfold at_least. induction 1 as [|y l Hl IH Hy]; simpl; [constructor|].
  destruct (T <=? score_of y); [|exact IH].
  constructor; [exact IH|].
  rewrite Forall_forall in Hy |- *. intros z Hz.
  apply Hy. apply list_elem_of_In. apply list_elem_of_In, filter_In in Hz. tauto.
Qed.

(** Two descending lists that hold the same records of each score, in the
    same order, are equal. *)
Lemma descending_scoring_eq l1 l2 :
  descending l1 -> descending l2 ->
  (forall k, scoring score_of k l1 = scoring score_of k l2) -> l1 = l2.
Proof.
  unfold scoring.
  intros H1. revert l2. induction H1 as [|x l1 H1 IH Hx]; intros l2 H2 Heq.
  - destruct l2 as [|y l2]; [reflexivity|].
    specialize (Heq (score_of y)). simpl in Heq. rewrite Z.eqb_refl in Heq. discriminate.
  - destruct H2 as [|y l2 H2 Hy].
    { specialize (Heq (score_of x)). simpl in Heq. rewrite Z.eqb_refl in Heq. discriminate. }
    assert (Hxy : score_of x <= score_of y).
    { pose proof (Heq (score_of x)) as E. simpl in E. rewrite Z.eqb_refl in E.
      assert (Hin : In x (y :: l2)).
      { eapply (proj1 (filter_In (fun r => score_of r =? score_of x) x (y :: l2))).
        simpl. rewrite <- E. now left. }
      destruct Hin as [-> | Hin]; [lia|].
      rewrite Forall_forall in Hy. apply list_elem_of_In in Hin. now apply Hy in Hin. }
    assert (Hyx : score_of y <= score_of x).
    { pose proof (Heq (score_of y)) as E. simpl in E. rewrite (Z.eqb_refl (score_of y)) in E.
      assert (Hin : In y (x :: l1)).
      { eapply (proj1 (filter_In (fun r => score_of r =? score_of y) y (x :: l1))).
        simpl. rewrite E. now left. }
      destruct Hin as [-> | Hin]; [lia|].
      rewrite Forall_forall in Hx. apply list_elem_of_In in Hin. now apply Hx in Hin. }
    assert (Exy : score_of x = score_of y) by lia.
    assert (E0 := Heq (score_of x)). simpl in E0.
    rewrite Z.eqb_refl, <- Exy, Z.eqb_refl in E0. injection E0 as <- E0.
    f_equal. apply IH; [exact H2|]. intros k.
    specialize (Heq k). simpl in Heq.
    destruct (score_of x =? k) eqn:Ek; [|exact Heq].
    apply Z.eqb_eq in Ek. subst k. exact E0.
Qed.

(** A stable descending sort has one result: any descending list that keeps
    the records of each score in input order is [sort_desc score_of]. *)
Lemma sort_desc_unique l l' :
  descending l' -> (forall k, scoring score_of k l' = scoring score_of k l) -> l' = sort_desc score_of l.
Proof.
  intros Hs Hk. apply descending_scoring_eq; [exact Hs | apply sort_desc_sorted|].
  intros k. now rewrite Hk, sort_desc_stable.
Qed.

End RankingFacts.

(** For every list of scored records and every threshold [T], the list
    [main] filters out of its sorted records, which is also the list [index]
    sorts out of its filtered records, holds exactly the records that score
    at least [T], in descending order of score, records of equal score in
    their input order, and in the relative order of the full sorted list;
    the full sorted list is the input rearranged, descending, and stable. *)
Lemma filtered_sorted_stable
    {record : Type} (score_of : record -> Z) (emails : list record) (T : Z) :
  let ranked := sort_desc score_of emails in
  let shown := main_filtered score_of emails T in
  web_scored score_of emails T = shown
  /\ (forall r, In r shown <-> In r emails /\ T <= score_of r)
  /\ Permutation shown (at_least score_of T emails)
  /\ StronglySorted (fun a b => score_of b <= score_of a) shown
  /\ (forall k, scoring score_of k shown
                = if T <=? k then scoring score_of k emails else [])
  /\ shown `sublist_of` ranked
  /\ Permutation ranked emails
  /\ StronglySorted (fun a b => score_of b <= score_of a) ranked
  /\ (forall k, scoring score_of k ranked = scoring score_of k emails).
Proof.
  intros ranked shown. unfold shown, ranked, main_filtered, web_scored.
  split; [symmetry; apply at_least_sort_desc|].
  split.
  { intros r. unfold at_least. rewrite filter_In, Z.leb_le.
    split; intros [Hin Hr]; (split; [|exact Hr]).
    - apply (Permutation_in _ (sort_desc_perm score_of emails)), Hin.
    - apply (Permutation_in _ (Permutation_sym (sort_desc_perm score_of emails))), Hin. }
  split; [rewrite at_least_sort_desc; apply sort_desc_perm|].
  split; [apply sorted_at_least, sort_desc_sorted|].
  split; [intros k; now rewrite scoring_at_least, sort_desc_stable|].
  split; [apply at_least_sublist|].
  split; [apply sort_desc_perm|].
  split; [apply sort_desc_sorted | intros k; apply sort_desc_stable].
Qed.

(** What [main] prints is the start of its filtered list: ten records at
    most. *)
Lemma main_printed_prefix {record : Type} (score_of : record -> Z) emails T :
  (main_printed score_of emails T
   ++ skipn 10 (main_filtered score_of emails T))%list
  = main_filtered score_of emails T
  /\ (List.length (main_printed score_of emails T) <= 10)%nat.
Proof.
  unfold main_printed. split; [apply firstn_skipn | apply firstn_le_length].
Qed.

(** Seven records, two ties, threshold 3. *)
Example ranking_of_seven :
  let emails := [("a", 2); ("b", 9); ("c", 5); ("d", 9); ("e", 0); ("f", 5); ("g", 3)] in
  List.map fst (main_filtered snd emails 3) = ["b"; "d"; "c"; "f"; "g"]
  /\ List.map fst (web_scored snd emails 3) = ["b"; "d"; "c"; "f"; "g"].
Proof. cbv zeta. split; vm_compute; reflexivity. Qed.

(** ** Blank records, totality and the frame *)

Section Blank.

Lemma blank_field r key : blank r key -> field r key = "".
Proof. unfold blank, field. now intros [-> | [-> | ->]]. Qed.

Lemma blank_row_firings r :
  Forall (blank r) scored_columns ->
  MainRules.rule_firings r = [] /\ WebRules.rule_firings r = [].
Proof.
  intros H. unfold scored_columns in H.
  repeat (apply Forall_cons in H as [?%blank_field H]).
  split.
  - cbv [MainRules.rule_firings MainRules.keyword_firings MainRules.link_firings
         MainRules.attachment_firings MainRules.brand_firings MainRules.text_of
         MainRules.http_link MainRules.domains_differ MainRules.lookalike
         MainRules.has_attachment MainRules.risky_attachment MainRules.attachments_of
         MainRules.sender_domain_of MainRules.link_domain_of
         sender_of subject_of body_of links_of].
    repeat match goal with E : field r _ = _ |- _ => rewrite E; clear E end.
    vm_compute. reflexivity.
  - cbv [WebRules.rule_firings WebRules.keyword_firings WebRules.link_firings
         WebRules.brand_firings WebRules.blob_of WebRules.brand_mismatch
         WebRules.brand_mentioned WebRules.legit_sender
         WebRules.http_link WebRules.domains_differ WebRules.lookalike
         WebRules.has_attachment WebRules.attachments_of
         WebRules.sender_domain_of WebRules.link_domain_of
         sender_of subject_of body_of links_of].
    repeat match goal with E : field r _ = _ |- _ => rewrite E; clear E end.
    vm_compute. reflexivity.
Qed.

End Blank.

(** C8. A record whose scored columns are all absent or empty (whatever its
    [id]) scores 0 with no reasons in both profiles, a record with only an
    [id] among them; and [score_email] raises for no record at all. *)
Theorem blank_record_scores_zero :
  (forall r : row,
     Forall (blank r) scored_columns ->
     fst (Main.score_email r) = Return (0, []) /\ fst (Web.score_email r) = Return (0, []))
  /\ (forall v : pyval,
        fst (Main.score_email {[ "id" := v ]}) = Return (0, [])
        /\ fst (Web.score_email {[ "id" := v ]}) = Return (0, []))
  /\ (forall r : row,
        (exists res, fst (Main.score_email r) = Return res)
        /\ (exists res, fst (Web.score_email r) = Return res)).
Proof.
  assert (H0 : forall r : row,
             Forall (blank r) scored_columns ->
             fst (Main.score_email r) = Return (0, [])
             /\ fst (Web.score_email r) = Return (0, [])).
  { intros r H. destruct (blank_row_firings r H) as [E1 E2].
    rewrite main_score_email_eq, web_score_email_eq, E1, E2. split; reflexivity. }
  split; [exact H0|]. split.
  - intros v. apply H0. unfold scored_columns.
    repeat constructor; left; apply lookup_singleton_ne; discriminate.
  - intros r. rewrite main_score_email_eq, web_score_email_eq. split; eexists; reflexivity.
Qed.

(** C8 at a record with an [id], an empty subject and a short row's [None]. *)
Lemma blank_record_with_id :
  let r : row := <["body" := PyNone]> (row_of [("id", "42"); ("subject", "")]) in
  fst (Main.score_email r) = Return (0, []) /\ fst (Web.score_email r) = Return (0, []).
Proof.
  cbv zeta. apply (proj1 blank_record_scores_zero).
  unfold scored_columns, blank.
  repeat constructor; vm_compute; tauto.
Defined.

(** C10. [score_email] leaves the record it was given as it was: it only
    reads it. *)
Theorem score_email_leaves_record_unchanged (r : row) :
  snd (Main.score_email r) = r /\ snd (Web.score_email r) = r.
Proof. now rewrite main_score_email_eq, web_score_email_eq. Qed.

(** * Further properties of the code *)

(** ** Bounds on the score *)

Section Bounds.
Import PyStr.

Lemma total_fires_bounds (b : bool) d tag : 0 <= d -> 0 <= total (fires b d tag) <= d.
Proof. intros Hd. destruct b; simpl; lia. Qed.

Lemma length_filter_le {A} (p : A -> bool) (l : list A) :
  (List.length (List.filter p l) <= List.length l)%nat.
Proof. induction l as [|x l IH]; simpl; [lia|]. destruct (p x); simpl; lia. Qed.

Lemma main_total_bounds r : 0 <= total (MainRules.rule_firings r) <= 35.
Proof.
  unfold MainRules.rule_firings. rewrite !total_app.
  assert (Hk : 0 <= total (MainRules.keyword_firings r) <= 20).
  { unfold MainRules.keyword_firings. rewrite total_map_const.
    pose proof (length_filter_le (fun kw => contains kw (MainRules.text_of r))
                  Main.SUSPICIOUS_KEYWORDS) as H.
    change (List.length Main.SUSPICIOUS_KEYWORDS) with 10%nat in H. lia. }
  assert (Hl : 0 <= total (MainRules.link_firings r) <= 9).
  { unfold MainRules.link_firings. destruct (links_present _); [|simpl; lia].
    rewrite !total_app.
    pose proof (total_fires_bounds (MainRules.http_link r) 3 "link:http").
    pose proof (total_fires_bounds (MainRules.domains_differ r) 2 "link_domain_mismatch").
    pose proof (total_fires_bounds (MainRules.lookalike r) 1 "lookalike_hint").
    assert (0 <= total (MainRules.brand_firings r) <= 3)
      by (destruct (main_brand_firings_cases r) as [-> | [b ->]]; simpl; lia).
    lia. }
  assert (Ha : 0 <= total (MainRules.attachment_firings r) <= 6).
  { unfold MainRules.attachment_firings. destruct (MainRules.has_attachment r); [|simpl; lia].
    pose proof (total_fires_bounds (MainRules.risky_attachment r) 4 "risky_attachment_type").
    change (total ((2, "has_attachment")
                   :: fires (MainRules.risky_attachment r) 4 "risky_attachment_type"))
      with (2 + total (fires (MainRules.risky_attachment r) 4 "risky_attachment_type")).
    lia. }
  lia.
Qed.

Lemma web_total_bounds r : 0 <= total (WebRules.rule_firings r) <= 37.
Proof.
  unfold WebRules.rule_firings. rewrite !total_app.
  assert (Hk : 0 <= total (WebRules.keyword_firings r) <= 18).
  { unfold WebRules.keyword_firings. rewrite total_map_const.
    pose proof (length_filter_le (fun k => contains k (WebRules.blob_of r)) Web.KEYWORDS) as H.
    change (List.length Web.KEYWORDS) with 9%nat in H. lia. }
  assert (Hl : 0 <= total (WebRules.link_firings r) <= 16).
  { unfold WebRules.link_firings. destruct (links_present _); [|simpl; lia].
    rewrite !total_app.
    pose proof (total_fires_bounds (WebRules.http_link r) 2 "HTTP link (not HTTPS)").
    pose proof (total_fires_bounds (WebRules.domains_differ r) 2
                  "Link domain differs from sender domain").
    assert (0 <= total (WebRules.brand_firings r) <= 12).
    { unfold WebRules.brand_firings.
      rewrite (total_map_const 3 (fun b : string * list string => WebRules.brand_tag (fst b))).
      pose proof (length_filter_le (WebRules.brand_mismatch r) Web.BRANDS) as Hb.
      change (List.length Web.BRANDS) with 4%nat in Hb. lia. }
    lia. }
  pose proof (total_fires_bounds (WebRules.has_attachment r) 2 "Has attachment").
  pose proof (total_fires_bounds (WebRules.lookalike r) 1 "Possible lookalike pattern").
  lia.
Qed.

Lemma total_zero_iff (l : list firing) :
  Forall (fun f => 0 < fst f) l -> (total l = 0 <-> tags l = []).
Proof.
  intros H. destruct H as [|f l Hf Hl]; simpl; [tauto|].
  assert (0 <= total l).
  { apply total_nonneg. eapply Forall_impl; [exact Hl|]. intros g Hg. simpl in Hg. lia. }
  split; [lia | discriminate].
Qed.

Lemma main_firings_positive r : Forall (fun f => 0 < fst f) (MainRules.rule_firings r).
Proof.
  unfold MainRules.rule_firings, MainRules.keyword_firings, MainRules.link_firings,
    MainRules.attachment_firings.
  repeat (apply Forall_app; split).
  - apply Forall_map_filter. intros kw. simpl. lia.
  - destruct (links_present _); [|constructor].
    repeat (apply Forall_app; split); try (apply Forall_fires; simpl; lia).
    destruct (main_brand_firings_cases r) as [-> | [b ->]]; repeat constructor.
  - destruct (MainRules.has_attachment r); [|constructor].
    constructor; [simpl; lia | apply Forall_fires; simpl; lia].
Qed.

Lemma web_firings_positive r : Forall (fun f => 0 < fst f) (WebRules.rule_firings r).
Proof.
  unfold WebRules.rule_firings, WebRules.keyword_firings, WebRules.link_firings,
    WebRules.brand_firings.
  repeat (apply Forall_app; split); try (apply Forall_fires; simpl; lia).
  - apply Forall_map_filter. intros k. simpl. lia.
  - destruct (links_present _); [|constructor].
    repeat (apply Forall_app; split); try (apply Forall_fires; simpl; lia).
    apply Forall_map_filter. intros b. simpl. lia.
Qed.

End Bounds.

(** X1. The score of [main.py]'s [score_email] lies between 0 and 35 and that
    of [web.py]'s between 0 and 37, for every record; and each profile has a
    record that scores its maximum. *)
Theorem score_bounds_are_tight :
  (forall r : row, exists s rs, fst (Main.score_email r) = Return (s, rs) /\ 0 <= s <= 35)
  /\ (forall r : row, exists s rs, fst (Web.score_email r) = Return (s, rs) /\ 0 <= s <= 37)
  /\ (exists (r : row) rs, fst (Main.score_email r) = Return (35, rs))
  /\ (exists (r : row) rs, fst (Web.score_email r) = Return (37, rs)).
Proof.
  split; [|split; [|split]].
  - intros r. rewrite main_score_email_eq. do 2 eexists. split; [reflexivity|].
    apply main_total_bounds.
  - intros r. rewrite web_score_email_eq. do 2 eexists. split; [reflexivity|].
    apply web_total_bounds.
  - exists (row_of
      [("sender", "amazon@evil.com");
       ("subject", "urgent: verify your locked, suspended account - action required");
       ("body", "payment failed, compromised; secure reset after unusual login");
       ("links", "http://pay-pal0.example/login");
       ("attachments", "invoice.exe")]).
    eexists. vm_compute. reflexivity.
  - exists (row_of
      [("sender", "amazon-paypal-netflix-apple@evil1.example");
       ("subject", "verify your locked, suspended account - action required");
       ("body", "payment failed, compromised; secure reset after unusual login");
       ("links", "http://other.example/login");
       ("attachments", "invoice.pdf")]).
    eexists. vm_compute. reflexivity.
Qed.

(** X2. In both profiles a record scores 0 exactly when it gets no reason:
    every rule that fires adds at least one point. *)
Theorem zero_score_iff_no_reasons (r : row) :
  (exists s rs, fst (Main.score_email r) = Return (s, rs) /\ (s = 0 <-> rs = []))
  /\ (exists s rs, fst (Web.score_email r) = Return (s, rs) /\ (s = 0 <-> rs = [])).
Proof.
  split.
  - rewrite main_score_email_eq. do 2 eexists. split; [reflexivity|].
    apply total_zero_iff, main_firings_positive.
  - rewrite web_score_email_eq. do 2 eexists. split; [reflexivity|].
    apply total_zero_iff, web_firings_positive.
Qed.

(** ** Which reasons need which *)

Section Dependencies.
Import PyStr.

Lemma not_in_rejected (q : string -> bool) (l : list string) (tag : string) :
  q tag = true -> Forall (fun t => q t = false) l -> ~ In tag l.
Proof.
  intros Hq Hl Hin. rewrite Forall_forall in Hl.
  apply list_elem_of_In, Hl in Hin. congruence.
Qed.

Lemma in_tags_fires (b : bool) d tag t : In t (tags (fires b d tag)) -> b = true /\ t = tag.
Proof. destruct b; simpl; [intros [<- | []]; auto | intros []]. Qed.

Lemma main_in_risky r :
  In "risky_attachment_type" (tags (MainRules.rule_firings r)) ->
  MainRules.has_attachment r = true /\ MainRules.risky_attachment r = true.
Proof.
  set (q := String.eqb "risky_attachment_type").
  unfold MainRules.rule_firings. rewrite !tags_app, !in_app_iff.
  intros [H | [H | H]].
  - exfalso. revert H. apply (not_in_rejected q); [reflexivity|].
    apply main_keyword_tags_Forall; reflexivity.
  - exfalso. revert H. apply (not_in_rejected q); [reflexivity|].
    apply main_link_tags_Forall; reflexivity.
  - unfold MainRules.attachment_firings in H.
    destruct (MainRules.has_attachment r); [|destruct H].
    destruct H as [H | H]; [discriminate|].
    apply in_tags_fires in H as [-> _]. auto.
Qed.

Lemma main_in_has_attachment r :
  MainRules.has_attachment r = true -> In "has_attachment" (tags (MainRules.rule_firings r)).
Proof.
  intros H. unfold MainRules.rule_firings. rewrite !tags_app, !in_app_iff. right. right.
  unfold MainRules.attachment_firings. rewrite H. now left.
Qed.

Lemma main_in_mismatch r :
  In "link_domain_mismatch" (tags (MainRules.rule_firings r)) ->
  links_present (links_of r) = true /\ MainRules.domains_differ r = true.
Proof.
  set (q := String.eqb "link_domain_mismatch").
  unfold MainRules.rule_firings. rewrite !tags_app, !in_app_iff.
  intros [H | [H | H]].
  - exfalso. revert H. apply (not_in_rejected q); [reflexivity|].
    apply main_keyword_tags_Forall; reflexivity.
  - unfold MainRules.link_firings in H. destruct (links_present _); [|destruct H].
    rewrite !tags_app, !in_app_iff in H. destruct H as [H | [H | [H | H]]].
    + apply in_tags_fires in H as [_ H]. discriminate.
    + apply in_tags_fires in H as [-> _]. auto.
    + exfalso. revert H. apply (not_in_rejected q); [reflexivity|].
      apply main_brand_tags_Forall; reflexivity.
    + apply in_tags_fires in H as [_ H]. discriminate.
  - exfalso. revert H. apply (not_in_rejected q); [reflexivity|].
    apply main_attachment_tags_Forall; reflexivity.
Qed.

Lemma web_in_mismatch r :
  In "Link domain differs from sender domain" (tags (WebRules.rule_firings r)) ->
  links_present (links_of r) = true /\ WebRules.domains_differ r = true.
Proof.
  set (q := String.eqb "Link domain differs from sender domain").
  unfold WebRules.rule_firings. rewrite !tags_app, !in_app_iff.
  intros [H | [H | [H | H]]].
  - exfalso. revert H. apply (not_in_rejected q); [reflexivity|].
    apply web_keyword_tags_Forall; reflexivity.
  - apply in_tags_fires in H as [_ H]. discriminate.
  - unfold WebRules.link_firings in H. destruct (links_present _); [|destruct H].
    rewrite !tags_app, !in_app_iff in H. destruct H as [H | [H | H]].
    + apply in_tags_fires in H as [_ H]. discriminate.
    + apply in_tags_fires in H as [-> _]. auto.
    + exfalso. revert H. apply (not_in_rejected q); [reflexivity|].
      apply web_brand_tags_Forall; reflexivity.
  - apply in_tags_fires in H as [_ H]. discriminate.
Qed.

Lemma truthy_main_email_domain sender :
  truthy (MainRules.email_domain sender) = true -> contains "@" sender = true.
Proof. unfold MainRules.email_domain. now destruct (contains "@" sender). Qed.

Lemma truthy_web_email_domain sender :
  truthy (WebRules.email_domain sender) = true -> contains "@" sender = true.
Proof. unfold WebRules.email_domain. now destruct (contains "@" sender). Qed.

End Dependencies.

(** X3. In [main.py], [risky_attachment_type] is never given without
    [has_attachment]: the extension test sits inside the attachment test.
    An attachments field that reads "none", in any letter case and with
    blanks around it, gets neither reason. *)
Theorem risky_attachment_needs_attachment (r : row) :
  exists s rs, fst (Main.score_email r) = Return (s, rs)
    /\ (In "risky_attachment_type" rs -> In "has_attachment" rs)
    /\ (PyStr.strip (PyStr.lower (field r "attachments")) = "none" ->
        ~ In "has_attachment" rs /\ ~ In "risky_attachment_type" rs).
Proof.
  rewrite main_score_email_eq. do 2 eexists. split; [reflexivity|]. split.
  - intros H. apply main_in_risky in H as [H _]. now apply main_in_has_attachment.
  - intros Hnone.
    assert (Hno : MainRules.has_attachment r = false).
    { unfold MainRules.has_attachment, MainRules.attachments_of. now rewrite Hnone. }
    assert (Hrisky : ~ In "risky_attachment_type" (tags (MainRules.rule_firings r))).
    { intros H. apply main_in_risky in H as [H _]. congruence. }
    split; [|exact Hrisky].
    set (q := String.eqb "has_attachment").
    unfold MainRules.rule_firings. rewrite !tags_app, !in_app_iff.
    intros [H | [H | H]].
    + revert H. apply (not_in_rejected q); [reflexivity|].
      apply main_keyword_tags_Forall; reflexivity.
    + revert H. apply (not_in_rejected q); [reflexivity|].
      apply main_link_tags_Forall; reflexivity.
    + unfold MainRules.attachment_firings in H. rewrite Hno in H. destruct H.
Qed.

(** X3 at a record whose attachment is risky, and at one that says NONE. *)
Lemma risky_attachment_examples :
  (exists s rs, fst (Main.score_email (row_of [("attachments", "Setup.EXE")])) = Return (s, rs)
     /\ In "has_attachment" rs)
  /\ (exists s rs, fst (Main.score_email (row_of [("attachments", " NONE ")])) = Return (s, rs)
     /\ ~ In "has_attachment" rs).
Proof.
  split.
  - destruct (risky_attachment_needs_attachment (row_of [("attachments", "Setup.EXE")]))
      as (s & rs & E & H & _).
    exists s, rs. split; [exact E|]. apply H.
    vm_compute in E. injection E as _ <-. right. now left.
  - destruct (risky_attachment_needs_attachment (row_of [("attachments", " NONE ")]))
      as (s & rs & E & _ & H).
    exists s, rs. split; [exact E|]. apply H. vm_compute. reflexivity.
Defined.

(** X4. In both profiles the reason for a link domain that differs from the
    sender's is given only to a record that has a link (the trimmed links
    field is not empty and not "none") and whose sender holds an [@]. *)
Theorem domain_mismatch_needs_link_and_address (r : row) :
  (exists s rs, fst (Main.score_email r) = Return (s, rs)
     /\ (In "link_domain_mismatch" rs ->
         links_present (links_of r) = true /\ PyStr.contains "@" (sender_of r) = true))
  /\ (exists s rs, fst (Web.score_email r) = Return (s, rs)
     /\ (In "Link domain differs from sender domain" rs ->
         links_present (links_of r) = true /\ PyStr.contains "@" (sender_of r) = true)).
Proof.
  split.
  - rewrite main_score_email_eq. do 2 eexists. split; [reflexivity|].
    intros H. apply main_in_mismatch in H as [Hl Hd]. split; [exact Hl|].
    unfold MainRules.domains_differ in Hd.
    apply andb_true_iff in Hd as [Hd _]. apply andb_true_iff in Hd as [_ Hd].
    now apply truthy_main_email_domain.
  - rewrite web_score_email_eq. do 2 eexists. split; [reflexivity|].
    intros H. apply web_in_mismatch in H as [Hl Hd]. split; [exact Hl|].
    unfold WebRules.domains_differ in Hd.
    apply andb_true_iff in Hd as [Hd _]. apply andb_true_iff in Hd as [_ Hd].
    now apply truthy_web_email_domain.
Qed.

(** X4 at a record whose link is on another domain than its sender. *)
Lemma domain_mismatch_example :
  let r := row_of [("sender", "it@corp.example"); ("links", "https://corp.example.evil.test/")] in
  links_present (links_of r) = true /\ PyStr.contains "@" (sender_of r) = true.
Proof.
  cbv zeta.
  destruct (proj1 (domain_mismatch_needs_link_and_address
                     (row_of [("sender", "it@corp.example");
                              ("links", "https://corp.example.evil.test/")])))
    as (s & rs & E & H).
  apply H. vm_compute in E. injection E as _ <-. now left.
Defined.

(** ** What the link domain can hold *)

Section LinkDomain.
Import PyStr.

Lemma all_chars_take_until p s : all_chars (fun c => negb (p c)) (Urllib.take_until p s) = true.
Proof.
  induction s as [|c s IH]; simpl; [reflexivity|].
  destruct (p c) eqn:E; simpl; [reflexivity | now rewrite E].
Qed.

Lemma all_chars_lstrip p q s : all_chars p s = true -> all_chars p (lstrip_with q s) = true.
Proof.
  induction s as [|c s IH]; simpl; [reflexivity|].
  intros H. destruct (q c); [|exact H].
  apply andb_true_iff in H as [_ H]. now apply IH.
Qed.

Lemma all_chars_rstrip p q s : all_chars p s = true -> all_chars p (rstrip_with q s) = true.
Proof.
  induction s as [|c s IH]; simpl; [reflexivity|].
  intros H. apply andb_true_iff in H as [Hc H]. specialize (IH H).
  destruct (rstrip_with q s) as [|d t].
  - destruct (q c); simpl; [reflexivity | now rewrite Hc].
  - change (all_chars p (String c (String d t)) = true).
    change (p c && all_chars p (String d t) = true). now rewrite Hc, IH.
Qed.

Lemma is_netloc_delim_lower_char c :
  Urllib.is_netloc_delim (lower_char c) = Urllib.is_netloc_delim c.
Proof. destruct c as [[] [] [] [] [] [] [] []]; reflexivity. Qed.

Lemma no_delim_lower s : no_delim (lower s) = no_delim s.
Proof.
  unfold no_delim. induction s as [|c s IH]; simpl; [reflexivity|].
  now rewrite is_netloc_delim_lower_char, IH.
Qed.

Lemma no_delim_strip s : no_delim s = true -> no_delim (strip s) = true.
Proof. unfold no_delim, strip. intros H. now apply all_chars_rstrip, all_chars_lstrip. Qed.

(** The netloc [urlsplit] hands back holds none of [/ ? #]. *)
Lemma urlparse_netloc_no_delim url netloc :
  Urllib.urlparse_netloc url = Return netloc -> no_delim netloc = true.
Proof.
  unfold Urllib.urlparse_netloc.
  generalize (Urllib.drop_scheme
                (Urllib.remove_unsafe_bytes (lstrip_with Urllib.is_c0_control_or_space url))).
  intros u.
  assert (Hsplit : forall rest, no_delim (Urllib.splitnetloc rest) = true)
    by (intros rest; apply all_chars_take_until).
  destruct u as [|a [|b rest]].
  - intros [= <-]. reflexivity.
  - destruct a as [[] [] [] [] [] [] [] []]; intros [= <-]; reflexivity.
  - destruct (Ascii.eqb a "/") eqn:Ha, (Ascii.eqb b "/") eqn:Hb.
    + apply Ascii.eqb_eq in Ha, Hb. subst a b.
      cbv [mbind outcome_bind obind mret outcome_ret Urllib.checknetloc].
      destruct (_ || _); [discriminate|].
      destruct (_ && _).
      * destruct (Urllib.check_bracketed_netloc _); [|discriminate].
        intros [= <-]. apply Hsplit.
      * intros [= <-]. apply Hsplit.
    + apply Ascii.eqb_neq in Hb.
      destruct a as [[] [] [] [] [] [] [] []]; try (intros [= <-]; reflexivity).
      destruct b as [[] [] [] [] [] [] [] []]; try (intros [= <-]; reflexivity). congruence.
    + apply Ascii.eqb_neq in Ha.
      destruct a as [[] [] [] [] [] [] [] []]; try (intros [= <-]; reflexivity). congruence.
    + apply Ascii.eqb_neq in Ha.
      destruct a as [[] [] [] [] [] [] [] []]; try (intros [= <-]; reflexivity). congruence.
Qed.

End LinkDomain.

(** X5. Whatever the text, the link domain holds none of the characters
    [/], [?] and [#]: [domain_from_url] and [get_domain] never hand back a
    piece of the path, the query or the fragment.  The two differ by the
    trimming alone: the result of [domain_from_url] is that of [get_domain],
    trimmed. *)
Theorem link_domain_holds_no_path (url : string) :
  exists d d', Main.domain_from_url url = Return d
    /\ Web.get_domain url = Return d'
    /\ no_delim d = true /\ no_delim d' = true
    /\ d = PyStr.strip d'.
Proof.
  exists (MainRules.url_domain url), (WebRules.url_domain url).
  split; [apply domain_from_url_eq|]. split; [apply get_domain_eq|].
  unfold MainRules.url_domain, WebRules.url_domain.
  destruct (Urllib.urlparse_netloc url) as [netloc|e] eqn:E; [|repeat split; reflexivity].
  apply urlparse_netloc_no_delim in E. rewrite truthy_or_empty.
  split; [apply no_delim_strip; now rewrite no_delim_lower|].
  split; [now rewrite no_delim_lower | reflexivity].
Qed.

Section PlainUrl.
Import PyStr.

Lemma all_chars_impl (p q : ascii -> bool) s :
  (forall c, p c = true -> q c = true) -> all_chars p s = true -> all_chars q s = true.
Proof.
  intros Hpq. induction s as [|c s IH]; simpl; [reflexivity|].
  intros H. apply andb_true_iff in H as [Hc H]. now rewrite (Hpq c Hc), IH.
Qed.

Lemma remove_char_absent x s :
  all_chars (fun c => negb (Ascii.eqb c x)) s = true -> remove_char x s = s.
Proof.
  induction s as [|c s IH]; simpl; [reflexivity|].
  intros H. apply andb_true_iff in H as [Hc H].
  destruct (Ascii.eqb c x); [discriminate | now rewrite IH].
Qed.

(** Text without tab, line feed and carriage return passes [urlsplit]'s
    clean-up untouched. *)
Lemma remove_unsafe_bytes_absent (p : ascii -> bool) s :
  (forall c, p c = true ->
     negb (Ascii.eqb c "009") && negb (Ascii.eqb c "010") && negb (Ascii.eqb c "013") = true) ->
  all_chars p s = true -> Urllib.remove_unsafe_bytes s = s.
Proof.
  intros Hp H. unfold Urllib.remove_unsafe_bytes.
  rewrite (remove_char_absent "009"), (remove_char_absent "013"), (remove_char_absent "010");
    try reflexivity;
    (eapply all_chars_impl; [|exact H]); intros c Hc; specialize (Hp c Hc);
    repeat (apply andb_true_iff in Hp as [Hp ?]); assumption.
Qed.

Lemma scheme_char_safe c :
  Urllib.is_scheme_char c = true ->
  negb (Ascii.eqb c "009") && negb (Ascii.eqb c "010") && negb (Ascii.eqb c "013") = true.
Proof. destruct c as [[] [] [] [] [] [] [] []]; vm_compute; congruence. Qed.

Lemma scheme_char_not_colon c :
  Urllib.is_scheme_char c = true -> negb (Ascii.eqb c ":") = true.
Proof. destruct c as [[] [] [] [] [] [] [] []]; vm_compute; congruence. Qed.

Lemma alpha_not_stripped c :
  Urllib.is_ascii_alpha c = true -> Urllib.is_c0_control_or_space c = false.
Proof. destruct c as [[] [] [] [] [] [] [] []]; vm_compute; congruence. Qed.

Lemma delim_safe c :
  Urllib.is_netloc_delim c = true ->
  Ascii.eqb c "009" = false /\ Ascii.eqb c "010" = false /\ Ascii.eqb c "013" = false.
Proof. destruct c as [[] [] [] [] [] [] [] []]; vm_compute; intuition congruence. Qed.

Lemma plain_host_char_safe c :
  plain_host_char c = true ->
  negb (Ascii.eqb c "009") && negb (Ascii.eqb c "010") && negb (Ascii.eqb c "013") = true.
Proof.
  unfold plain_host_char. intros H.
  repeat (apply andb_true_iff in H as [H ?]). now repeat (apply andb_true_iff; split).
Qed.

Lemma starts_rest_remove_unsafe rest :
  starts_rest rest = true -> starts_rest (Urllib.remove_unsafe_bytes rest) = true.
Proof.
  destruct rest as [|c rest]; [reflexivity|]. simpl. intros Hc.
  destruct (delim_safe c Hc) as (H1 & H2 & H3).
  unfold Urllib.remove_unsafe_bytes. simpl. rewrite H1. simpl. rewrite H3. simpl.
  rewrite H2. simpl. exact Hc.
Qed.

Lemma take_until_app p host rest :
  all_chars (fun c => negb (p c)) host = true ->
  match rest with EmptyString => true | String c _ => p c end = true ->
  Urllib.take_until p (host +:+ rest) = host.
Proof.
  intros Hh Hr. induction host as [|c host IH].
  - destruct rest as [|d rest]; [reflexivity|]. simpl in *. now rewrite Hr.
  - simpl in Hh. apply andb_true_iff in Hh as [Hc Hh].
    change (Urllib.take_until p (String c (host +:+ rest)) = String c host).
    simpl. destruct (p c); [discriminate|]. now rewrite IH.
Qed.

Lemma has_char_false_of_all p x s :
  (forall c, p c = true -> negb (Ascii.eqb c x) = true) ->
  all_chars p s = true -> has_char x s = false.
Proof.
  intros Hp H. unfold has_char.
  rewrite (all_chars_impl p (fun a => negb (Ascii.eqb a x)) s Hp H). reflexivity.
Qed.

(** The netloc of [scheme://host] followed by nothing, a path, a query or a
    fragment is the host. *)
Lemma urlparse_netloc_plain sch host rest :
  is_scheme sch = true -> all_chars plain_host_char host = true -> starts_rest rest = true ->
  Urllib.urlparse_netloc (sch +:+ "://" +:+ host +:+ rest) = Return host.
Proof.
  intros Hsch Hhost Hrest. unfold Urllib.urlparse_netloc.
  destruct sch as [|c sch']; [discriminate|]. set (sch := String c sch') in *.
  simpl in Hsch. apply andb_true_iff in Hsch as [Halpha Hchars].
  change (all_chars Urllib.is_scheme_char sch = true) in Hchars.
  change (lstrip_with Urllib.is_c0_control_or_space (sch +:+ "://" +:+ host +:+ rest))
    with (if Urllib.is_c0_control_or_space c
          then lstrip_with Urllib.is_c0_control_or_space (sch' +:+ "://" +:+ host +:+ rest)
          else sch +:+ "://" +:+ host +:+ rest).
  rewrite (alpha_not_stripped c Halpha).
  rewrite !remove_unsafe_bytes_app.
  rewrite (remove_unsafe_bytes_absent _ sch scheme_char_safe Hchars).
  rewrite (remove_unsafe_bytes_absent _ host plain_host_char_safe Hhost).
  change (Urllib.remove_unsafe_bytes "://") with "://".
  set (rest' := Urllib.remove_unsafe_bytes rest).
  assert (Hrest' : starts_rest rest' = true) by now apply starts_rest_remove_unsafe.
  assert (Hdrop : Urllib.drop_scheme (sch +:+ "://" +:+ host +:+ rest')
                  = "//" +:+ host +:+ rest').
  { unfold Urllib.drop_scheme.
    change (sch +:+ "://" +:+ host +:+ rest')
      with (sch +:+ String ":" ("//" +:+ host +:+ rest')).
    rewrite partition_app
      by (apply (has_char_false_of_all Urllib.is_scheme_char); [apply scheme_char_not_colon | exact Hchars]).
    unfold sch at 1. rewrite Halpha, Hchars. reflexivity. }
  rewrite Hdrop.
  change ("//" +:+ host +:+ rest') with (String "/" (String "/" (host +:+ rest'))).
  cbv iota beta.
  assert (Hnet : Urllib.splitnetloc (host +:+ rest') = host).
  { apply take_until_app; [|exact Hrest'].
    eapply all_chars_impl; [|exact Hhost]. intros a Ha. unfold plain_host_char in Ha.
    repeat (apply andb_true_iff in Ha as [Ha ?]). exact Ha. }
  rewrite Hnet.
  assert (Hopen : has_char "[" host = false).
  { apply (has_char_false_of_all plain_host_char); [|exact Hhost].
    intros a Ha. unfold plain_host_char in Ha.
    repeat (apply andb_true_iff in Ha as [Ha ?]). assumption. }
  assert (Hclose : has_char "]" host = false).
  { apply (has_char_false_of_all plain_host_char); [|exact Hhost].
    intros a Ha. unfold plain_host_char in Ha.
    repeat (apply andb_true_iff in Ha as [Ha ?]). assumption. }
  rewrite Hopen, Hclose. reflexivity.
Qed.

End PlainUrl.

(** X6. For a URL [scheme://host] followed by nothing or by a path, a query
    or a fragment, whose host is made of characters with code points below
    256, the strings of this development, and holds no bracket, tab or line
    break, [domain_from_url] gives the host in lower case and trimmed and
    [get_domain] gives it in lower case: a port or a user name in the host
    stays in the domain.  The bound on the code points matters: for a host
    with a character such as U+2100, which NFKC normalisation turns into text
    with a [/], [urlsplit] raises and both functions give the empty
    string. *)
Theorem link_domain_of_plain_url (sch host rest : string) :
  is_scheme sch = true ->
  PyStr.all_chars plain_host_char host = true ->
  starts_rest rest = true ->
  Main.domain_from_url (sch +:+ "://" +:+ host +:+ rest)
  = Return (PyStr.strip (PyStr.lower host))
  /\ Web.get_domain (sch +:+ "://" +:+ host +:+ rest) = Return (PyStr.lower host).
Proof.
  intros Hsch Hhost Hrest.
  rewrite domain_from_url_eq, get_domain_eq.
  unfold MainRules.url_domain, WebRules.url_domain.
  rewrite (urlparse_netloc_plain sch host rest Hsch Hhost Hrest), truthy_or_empty.
  split; reflexivity.
Qed.

(** X6 at a URL with a user name and a port. *)
Lemma link_domain_of_plain_url_example :
  Main.domain_from_url "HTTPS://bob@Pay-Pal.Example.COM:8080/login?next=/home"
  = Return "bob@pay-pal.example.com:8080"
  /\ Web.get_domain "HTTPS://bob@Pay-Pal.Example.COM:8080/login?next=/home"
     = Return "bob@pay-pal.example.com:8080".
Proof.
  apply (link_domain_of_plain_url "HTTPS" "bob@Pay-Pal.Example.COM:8080" "/login?next=/home");
    vm_compute; reflexivity.
Defined.

(** ** Keywords in any letter case *)

Section AnyCase.
Import PyStr.

Lemma contains_app_l k s t : contains k s = true -> contains k (s +:+ t) = true.
Proof.
  rewrite !contains_iff. intros (a & b & ->). exists a, (b +:+ t).
  now rewrite !append_assoc.
Qed.

Lemma contains_app_r k s t : contains k s = true -> contains k (t +:+ s) = true.
Proof.
  rewrite !contains_iff. intros (a & b & ->). exists (t +:+ a), b.
  now rewrite !append_assoc.
Qed.

Lemma mentions_contains raw kw : mentions raw kw -> contains kw (lower raw) = true.
Proof.
  intros (a & w & b & -> & <-). apply contains_iff.
  exists (lower a), (lower b). now rewrite !lower_app.
Qed.

Lemma main_keyword_in r kw :
  In kw Main.SUSPICIOUS_KEYWORDS -> contains kw (MainRules.text_of r) = true ->
  In (MainRules.keyword_tag kw) (tags (MainRules.rule_firings r)).
Proof.
  intros Hkw Hc. unfold MainRules.rule_firings. rewrite tags_app, in_app_iff. left.
  rewrite main_keyword_tags. apply in_map, filter_In. auto.
Qed.

Lemma web_keyword_in r k :
  In k Web.KEYWORDS -> contains k (WebRules.blob_of r) = true ->
  In (WebRules.keyword_tag k) (tags (WebRules.rule_firings r)).
Proof.
  intros Hk Hc. unfold WebRules.rule_firings. rewrite tags_app, in_app_iff. left.
  rewrite web_keyword_tags. apply in_map, filter_In. auto.
Qed.

End AnyCase.

(** X7. Keywords are matched whatever the letter case of the record.  In
    [main.py] a configured keyword that stands in the subject or in the body
    in any mix of upper and lower case gets its [keyword:] reason; in
    [web.py] so does one that stands in the sender, the subject or the
    body. *)
Theorem keywords_match_in_any_case (r : row) (kw : string) :
  (In kw Main.SUSPICIOUS_KEYWORDS ->
   mentions (field r "subject") kw \/ mentions (field r "body") kw ->
   exists s rs, fst (Main.score_email r) = Return (s, rs) /\ In ("keyword:" +:+ kw) rs)
  /\ (In kw Web.KEYWORDS ->
      mentions (field r "sender") kw \/ mentions (field r "subject") kw
      \/ mentions (field r "body") kw ->
      exists s rs, fst (Web.score_email r) = Return (s, rs)
                   /\ In ("Keyword match: '" +:+ kw +:+ "'") rs).
Proof.
  split.
  - intros Hkw Hm. rewrite main_score_email_eq. do 2 eexists. split; [reflexivity|].
    apply (main_keyword_in r kw Hkw). unfold MainRules.text_of, subject_of, body_of.
    destruct Hm as [Hm | Hm]; apply mentions_contains in Hm.
    + now apply contains_app_l.
    + now apply contains_app_r, contains_app_r.
  - intros Hkw Hm. rewrite web_score_email_eq. do 2 eexists. split; [reflexivity|].
    apply (web_keyword_in r kw Hkw). unfold WebRules.blob_of, sender_of, subject_of, body_of.
    destruct Hm as [Hm | [Hm | Hm]]; apply mentions_contains in Hm.
    + now apply contains_app_l.
    + now apply contains_app_r, contains_app_r, contains_app_l.
    + now apply contains_app_r, contains_app_r, contains_app_r, contains_app_r.
Qed.

(** X7 at a subject in capitals. *)
Lemma keywords_match_in_capitals :
  let r := row_of [("subject", "Your account is SUSPENDED")] in
  (exists s rs, fst (Main.score_email r) = Return (s, rs) /\ In "keyword:suspended" rs)
  /\ (exists s rs, fst (Web.score_email r) = Return (s, rs)
                   /\ In "Keyword match: 'suspended'" rs).
Proof.
  cbv zeta.
  assert (Hm : mentions (field (row_of [("subject", "Your account is SUSPENDED")]) "subject")
                        "suspended").
  { exists "Your account is ", "SUSPENDED", "". split; vm_compute; reflexivity. }
  split.
  - apply (proj1 (keywords_match_in_any_case _ "suspended")).
    + vm_compute. tauto.
    + left. exact Hm.
  - apply (proj2 (keywords_match_in_any_case _ "suspended")).
    + vm_compute. tauto.
    + right. left. exact Hm.
Defined.

(** ** The reasons column *)

Section ReasonsColumn.
Import PyStr.

Lemma split_no_sep sep s : has_char sep s = false -> split sep s = [s].
Proof.
  unfold has_char. induction s as [|c s IH]; simpl; [reflexivity|].
  destruct (Ascii.eqb c sep); simpl; [discriminate|].
  intros H. now rewrite (IH H).
Qed.






End ReasonsColumn.


(** ** Rows of the input file *)

Section InputRows.

Lemma main_rule_firings_ext r r' :
  same_fields r r' -> MainRules.rule_firings r = MainRules.rule_firings r'.
Proof.
  intros H.
  cbv [MainRules.rule_firings MainRules.keyword_firings MainRules.link_firings
       MainRules.attachment_firings MainRules.brand_firings MainRules.text_of
       MainRules.http_link MainRules.domains_differ MainRules.lookalike
       MainRules.has_attachment MainRules.risky_attachment MainRules.attachments_of
       MainRules.sender_domain_of MainRules.link_domain_of
       sender_of subject_of body_of links_of].
  now rewrite !H.
Qed.

Lemma web_rule_firings_ext r r' :
  same_fields r r' -> WebRules.rule_firings r = WebRules.rule_firings r'.
Proof.
  intros H.
  cbv [WebRules.rule_firings WebRules.keyword_firings WebRules.link_firings
       WebRules.brand_firings WebRules.blob_of WebRules.brand_mismatch
       WebRules.brand_mentioned WebRules.legit_sender
       WebRules.http_link WebRules.domains_differ WebRules.lookalike
       WebRules.has_attachment WebRules.attachments_of
       WebRules.sender_domain_of WebRules.link_domain_of
       sender_of subject_of body_of links_of].
  now rewrite !H.
Qed.

Lemma same_fields_insert_blank (m m' : row) key :
  same_fields m m' -> same_fields (<[key := PyNone]> m) (<[key := PyString ""]> m').
Proof.
  intros H k. unfold field. destruct (decide (key = k)) as [-> | Hne].
  - now rewrite !lookup_insert_eq.
  - rewrite !lookup_insert_ne by exact Hne. apply H.
Qed.

Lemma same_fields_pad (keys : list string) (m m' : row) :
  same_fields m m' ->
  same_fields
    (fold_left (fun (d : row) key => <[key := PyNone]> d) keys m)
    (fold_left (fun (d : row) kv => <[fst kv := PyString (snd kv)]> d)
               (zip keys (replicate (List.length keys) "")) m').
Proof.
  revert m m'. induction keys as [|k keys IH]; intros m m' H; [exact H|].
  simpl. apply IH. now apply same_fields_insert_blank.
Qed.

Lemma zip_pad {A B} (names : list A) (cells pad : list B) :
  (List.length cells <= List.length names)%nat ->
  zip names (cells ++ pad) = (zip names cells ++ zip (drop (List.length cells) names) pad)%list.
Proof.
  revert names. induction cells as [|c cells IH]; intros names Hlen;
    [destruct names; reflexivity|].
  destruct names as [|n names]; [simpl in Hlen; lia|].
  simpl in *. f_equal. apply IH. lia.
Qed.

(** A short row reads like the row filled up with empty cells. *)
Lemma dict_row_padded fieldnames cells :
  (List.length cells <= List.length fieldnames)%nat ->
  same_fields
    (Csv.dict_row fieldnames cells)
    (Csv.dict_row fieldnames
       (cells ++ replicate (List.length fieldnames - List.length cells) "")).
Proof.
  intros Hlen. unfold Csv.dict_row.
  rewrite (zip_pad fieldnames cells _ Hlen), fold_left_app.
  rewrite length_app, length_replicate.
  replace (List.length cells + (List.length fieldnames - List.length cells))%nat
    with (List.length fieldnames) by lia.
  rewrite drop_all. simpl.
  replace (List.length fieldnames - List.length cells)%nat
    with (List.length (drop (List.length cells) fieldnames))
    by (rewrite length_drop; reflexivity).
  apply same_fields_pad. intros k. reflexivity.
Qed.

End InputRows.

(** X9. A row of the input file with fewer cells than the header has names is
    scored, in both profiles, exactly as the row filled up with empty cells:
    [DictReader] stores [None] for the cells that are missing, and
    [score_email] reads [None] as the empty string. *)
Theorem short_row_scores_as_padded (fieldnames cells : list string) :
  (List.length cells <= List.length fieldnames)%nat ->
  let short := Csv.dict_row fieldnames cells in
  let padded := Csv.dict_row fieldnames
                  (cells ++ replicate (List.length fieldnames - List.length cells) "") in
  fst (Main.score_email short) = fst (Main.score_email padded)
  /\ fst (Web.score_email short) = fst (Web.score_email padded).
Proof.
  intros Hlen short padded.
  pose proof (dict_row_padded fieldnames cells Hlen) as H. fold short padded in H.
  rewrite !main_score_email_eq, !web_score_email_eq. simpl.
  now rewrite (main_rule_firings_ext _ _ H), (web_rule_firings_ext _ _ H).
Qed.

(** X9 at a row cut off after its subject. *)
Lemma short_row_example :
  let fieldnames := ["id"; "sender"; "subject"; "body"; "links"; "attachments"] in
  fst (Main.score_email (Csv.dict_row fieldnames ["7"; "a@b.example"; "Verify now"]))
  = fst (Main.score_email
           (Csv.dict_row fieldnames ["7"; "a@b.example"; "Verify now"; ""; ""; ""])).
Proof.
  cbv zeta.
  apply (short_row_scores_as_padded
           ["id"; "sender"; "subject"; "body"; "links"; "attachments"]
           ["7"; "a@b.example"; "Verify now"]).
  simpl. lia.
Defined.

(** ** The report of [main] *)

Section Report.

Lemma mapM_option_total {A B} (f : A -> option B) (g : A -> B) (l : list A) :
  (forall x, f x = Some (g x)) -> mapM f l = Some (List.map g l).
Proof.
  intros H. induction l as [|x l IH]; [reflexivity|].
  simpl. rewrite H, IH. reflexivity.
Qed.

Lemma mapM_option_map {A B C} (f : B -> option C) (h : A -> B) (g : A -> C) (l : list A) :
  (forall x, f (h x) = Some (g x)) -> mapM f (List.map h l) = Some (List.map g l).
Proof.
  intros H. induction l as [|x l IH]; [reflexivity|].
  simpl. rewrite H, IH. reflexivity.
Qed.

Lemma insert_desc_map {A B} (key : B -> Z) (h : A -> B) x (l : list A) :
  insert_desc key (h x) (List.map h l)
  = List.map h (insert_desc (fun a => key (h a)) x l).
Proof.
  induction l as [|y l IH]; [reflexivity|]. simpl.
  destruct (key (h x) <? key (h y)); [simpl; now rewrite IH | reflexivity].
Qed.

(** Sorting decorated records is sorting the records. *)
Lemma sort_desc_map {A B} (key : B -> Z) (h : A -> B) (l : list A) :
  sort_desc key (List.map h l) = List.map h (sort_desc (fun a => key (h a)) l).
Proof.
  induction l as [|x l IH]; [reflexivity|].
  simpl. rewrite IH. apply insert_desc_map.
Qed.

Lemma at_least_map {A B} (key : B -> Z) (h : A -> B) T (l : list A) :
  at_least key T (List.map h l) = List.map h (at_least (fun a => key (h a)) T l).
Proof.
  unfold at_least. induction l as [|x l IH]; [reflexivity|]. simpl.
  destruct (T <=? key (h x)); simpl; now rewrite IH.
Qed.

Lemma main_score_reasons r :
  fst (Main.score_email r) = Return (Cli.score_of r, Cli.reasons_of r).
Proof. unfold Cli.score_of, Cli.reasons_of. now rewrite main_score_email_eq. Qed.

Lemma score_row_eq r : Cli.score_row r = Some (Cli.scored_of r).
Proof.
  unfold Cli.score_row, Cli.scored_of, Cli.score_of, Cli.reasons_of.
  now rewrite main_score_email_eq.
Qed.

Lemma score_key_scored_of r : Cli.score_key (Cli.scored_of r) = Some (Cli.score_of r).
Proof.
  unfold Cli.score_key, Cli.scored_of.
  rewrite lookup_insert_ne by discriminate. now rewrite lookup_insert_eq.
Qed.

Lemma keyed_scored_of (rows : list row) :
  Cli.keyed (List.map Cli.scored_of rows)
  = Some (List.map (fun r => (Cli.score_of r, Cli.scored_of r)) rows).
Proof.
  unfold Cli.keyed. induction rows as [|r rows IH]; [reflexivity|].
  simpl in *. rewrite score_key_scored_of. simpl. now rewrite IH.
Qed.

Lemma get_scored_of r key :
  key <> "_score" -> key <> "_reasons" ->
  Cli.get (Cli.scored_of r) key = Cli.PyCell (default PyNone (r !! key)).
Proof.
  intros H1 H2. unfold Cli.get, Cli.scored_of.
  rewrite !lookup_insert_ne by congruence. rewrite lookup_fmap.
  now destruct (r !! key).
Qed.

Lemma lookup_score_scored_of r :
  Cli.scored_of r !! "_score" = Some (Cli.PyInt (Cli.score_of r)).
Proof.
  unfold Cli.scored_of. rewrite lookup_insert_ne by discriminate. apply lookup_insert_eq.
Qed.

Lemma lookup_reasons_scored_of r :
  Cli.scored_of r !! "_reasons"
  = Some (Cli.PyCell (PyString (String.concat ";" (Cli.reasons_of r)))).
Proof. unfold Cli.scored_of. apply lookup_insert_eq. Qed.

Lemma report_row_scored_of r : Cli.report_row (Cli.scored_of r) = Some (Cli.line_of r).
Proof.
  unfold Cli.report_row.
  rewrite lookup_score_scored_of, lookup_reasons_scored_of.
  rewrite !get_scored_of by discriminate. reflexivity.
Qed.

End Report.

(** X10. [main] returns for every input file whose rows it has read.  Its
    report holds one line for each record of the file, in descending order of
    score with equal scores in file order, each line with the record's own
    columns, the score [score_email] gave it and its reasons joined by [;];
    the report is never filtered.  The count it prints as shown is the number
    of records that score at least [min_score], and it prints the first ten
    of them at most. *)
Theorem main_report_ranks_every_record (lines : list (list string)) (min_score : Z) :
  let rows := Csv.DictReader lines in
  exists o, Cli.main (Some lines) min_score = Some (Cli.Saved o)
    /\ (forall r, fst (Main.score_email r) = Return (Cli.score_of r, Cli.reasons_of r))
    /\ Cli.report o = List.map Cli.line_of (sort_desc Cli.score_of rows)
    /\ Permutation (sort_desc Cli.score_of rows) rows
    /\ StronglySorted (fun a b => Cli.score_of b <= Cli.score_of a) (sort_desc Cli.score_of rows)
    /\ (forall k, scoring Cli.score_of k (sort_desc Cli.score_of rows)
                  = scoring Cli.score_of k rows)
    /\ List.length (Cli.report o) = List.length rows
    /\ Cli.loaded o = List.length rows
    /\ Cli.showing o = List.length (at_least Cli.score_of min_score rows)
    /\ Cli.printed o
       = firstn 10 (List.map Cli.scored_of (main_filtered Cli.score_of rows min_score))
    /\ (List.length (Cli.printed o) <= 10)%nat
    /\ (Cli.showing o <= Cli.loaded o)%nat.
Proof.
  intros rows. unfold Cli.main. fold rows.
  rewrite (mapM_option_total Cli.score_row Cli.scored_of rows score_row_eq).
  cbn [mbind option_bind]. rewrite keyed_scored_of. cbn [mbind option_bind].
  rewrite (sort_desc_map fst (fun r => (Cli.score_of r, Cli.scored_of r)) rows).
  cbn [fst]. fold (sort_desc Cli.score_of rows).
  rewrite List.map_map. cbn [snd].
  change (List.map (fun x => Cli.scored_of x) (sort_desc (fun a => Cli.score_of a) rows))
    with (List.map Cli.scored_of (sort_desc Cli.score_of rows)).
  rewrite keyed_scored_of. cbn [mbind option_bind].
  rewrite (at_least_map fst (fun r => (Cli.score_of r, Cli.scored_of r))).
  cbn [fst]. rewrite List.map_map. cbn [snd].
  rewrite (mapM_option_map Cli.report_row Cli.scored_of Cli.line_of _ report_row_scored_of).
  cbn [mbind option_bind]. eexists. split; [reflexivity|]. cbn [Cli.report Cli.loaded
    Cli.showing Cli.printed].
  change (at_least (fun a => Cli.score_of a) min_score (sort_desc Cli.score_of rows))
    with (main_filtered Cli.score_of rows min_score).
  change (List.map (fun x => Cli.scored_of x) (main_filtered Cli.score_of rows min_score))
    with (List.map Cli.scored_of (main_filtered Cli.score_of rows min_score)).
  pose proof (sort_desc_perm Cli.score_of rows) as Hperm.
  assert (Hshow : List.length (main_filtered Cli.score_of rows min_score)
                  = List.length (at_least Cli.score_of min_score rows)).
  { unfold main_filtered. rewrite at_least_sort_desc.
    apply Permutation_length, sort_desc_perm. }
  split; [apply main_score_reasons|].
  split; [reflexivity|].
  split; [exact Hperm|].
  split; [apply sort_desc_sorted|].
  split; [intros k; apply sort_desc_stable|].
  rewrite !length_map.
  split; [apply Permutation_length, Hperm|].
  split; [apply Permutation_length, Hperm|].
  split; [exact Hshow|].
  split; [reflexivity|].
  split; [apply firstn_le_length|].
  rewrite Hshow, (Permutation_length Hperm). apply length_filter_le.
Qed.

(** ** The page of [index] *)

Section Page.

Lemma mapM_outcome_total {A B} (f : A -> outcome B) (g : A -> B) (l : list A) :
  (forall x, f x = Return (g x)) -> mapM f l = Return (List.map g l).
Proof.
  intros H. induction l as [|x l IH]; [reflexivity|].
  simpl. rewrite H. cbn [mbind outcome_bind obind]. rewrite IH. reflexivity.
Qed.

Lemma web_score_reasons r :
  fst (Web.score_email r) = Return (Site.score_of r, Site.reasons_of r).
Proof. unfold Site.score_of, Site.reasons_of. now rewrite web_score_email_eq. Qed.

Lemma score_entry_eq min_score e :
  Site.score_entry min_score e
  = Return (if min_score <=? Site.score_of e then [Site.out_of e] else []).
Proof.
  unfold Site.score_entry, Site.out_of, Site.score_of, Site.reasons_of.
  now rewrite web_score_email_eq.
Qed.

Lemma concat_entries min_score (emails : list row) :
  List.concat (List.map (fun e => if min_score <=? Site.score_of e then [Site.out_of e] else [])
                        emails)
  = List.map Site.out_of (at_least Site.score_of min_score emails).
Proof.
  unfold at_least. induction emails as [|e emails IH]; [reflexivity|].
  simpl. rewrite IH. now destruct (min_score <=? Site.score_of e).
Qed.

Lemma web_reasons_not_placeholder r : Site.reasons_of r <> ["No indicators found"].
Proof.
  unfold Site.reasons_of. rewrite web_score_email_eq. simpl. intros E.
  assert (Hin : In "No indicators found" (tags (WebRules.rule_firings r)))
    by (rewrite E; now left).
  apply list_elem_of_In in Hin.
  pose proof (elem_of_sublist _ _ _ Hin (web_tags_sublist r)) as H.
  apply list_elem_of_In in H. vm_compute in H. intuition discriminate.
Qed.

Lemma web_zero_iff_no_reasons r : Site.score_of r = 0 <-> Site.reasons_of r = [].
Proof.
  unfold Site.score_of, Site.reasons_of. rewrite web_score_email_eq. simpl.
  apply total_zero_iff, web_firings_positive.
Qed.

End Page.

(** X11. For an input file that can be read, [index] shows no error and
    lists exactly the records that score at least [min_score], in descending
    order of score with equal scores in file order.  Every entry has a
    list of reasons that is not empty, and it is the single line "No
    indicators found" exactly when the entry's score is 0; so with a
    threshold above 0 that line is never shown. *)
Theorem index_lists_records_at_threshold (lines : list (list string)) (min_score : Z) :
  let emails := Site.load_emails lines in
  let page := Site.index (Some lines) min_score in
  Site.error page = false
  /\ (forall r, fst (Web.score_email r) = Return (Site.score_of r, Site.reasons_of r))
  /\ Site.results page
     = List.map Site.out_of (web_scored Site.score_of emails min_score)
  /\ Site.loaded page = List.length emails
  /\ Site.shown page = List.length (at_least Site.score_of min_score emails)
  /\ (Site.shown page <= Site.loaded page)%nat
  /\ Forall (fun o => min_score <= Site.score o
                      /\ Site.reasons_list o <> []
                      /\ (Site.reasons_list o = ["No indicators found"] <-> Site.score o = 0))
            (Site.results page)
  /\ (0 < min_score ->
      Forall (fun o => Site.reasons_list o <> ["No indicators found"]) (Site.results page)).
Proof.
  intros emails page. unfold page, Site.index. fold emails.
  rewrite (mapM_outcome_total _ _ emails (score_entry_eq min_score)).
  rewrite concat_entries.
  rewrite (sort_desc_map Site.score Site.out_of).
  change (fun a => Site.score (Site.out_of a)) with Site.score_of.
  fold (web_scored Site.score_of emails min_score).
  cbn [Site.error Site.loaded Site.shown Site.results].
  assert (Hlen : List.length (web_scored Site.score_of emails min_score)
                 = List.length (at_least Site.score_of min_score emails))
    by (apply Permutation_length, sort_desc_perm).
  assert (Hentries : Forall (fun o => min_score <= Site.score o
                      /\ Site.reasons_list o <> []
                      /\ (Site.reasons_list o = ["No indicators found"] <-> Site.score o = 0))
            (List.map Site.out_of (web_scored Site.score_of emails min_score))).
  { apply Forall_forall. intros o Ho.
    apply list_elem_of_In, in_map_iff in Ho as (r & <- & Hr).
    apply (Permutation_in _ (sort_desc_perm Site.score_of _)) in Hr.
    apply filter_In in Hr as [_ Hr]. apply Z.leb_le in Hr.
    split; [exact Hr|]. cbn [Site.out_of Site.score Site.reasons_list].
    pose proof (web_zero_iff_no_reasons r) as Hz.
    pose proof (web_reasons_not_placeholder r) as Hp.
    destruct (Site.reasons_of r) as [|t l] eqn:E.
    - split; [discriminate|]. split; [intros _; now apply Hz | reflexivity].
    - split; [discriminate|]. split; [intros E'; contradiction|].
      intros H0. apply Hz in H0. discriminate. }
  split; [reflexivity|].
  split; [apply web_score_reasons|].
  split; [reflexivity|].
  split; [reflexivity|].
  rewrite length_map.
  split; [exact Hlen|].
  split; [rewrite Hlen; apply length_filter_le|].
  split; [exact Hentries|].
  intros Hpos. eapply Forall_impl; [exact Hentries|].
  intros o (Hmin & _ & Hiff) E. apply Hiff in E. lia.
Qed.

(** X11 at the default threshold of the page. *)
Lemma index_at_default_threshold :
  let page := Site.index (Some [["id"; "sender"; "subject"; "attachments"];
                                ["1"; "a@b.example"; "lunch"; ""];
                                ["2"; "x@paypa1.example"; "Verify: account locked, suspended";
                                 "form.exe"]]) 8 in
  Forall (fun o => Site.reasons_list o <> ["No indicators found"]) (Site.results page)
  /\ List.map Site.id (Site.results page) = [PyString "2"].
Proof.
  cbv zeta. split.
  - apply (index_lists_records_at_threshold _ 8). lia.
  - vm_compute. reflexivity.
Defined.

(** ** The plain-HTTP rule *)

Section PlainHttp.
Import PyStr.

Lemma lower_empty_inv s : lower s = "" -> s = "".
Proof. now destruct s. Qed.

Lemma http_link_present links :
  startswith "http://" (lower links) = true -> links_present links = true.
Proof.
  intros H. unfold links_present.
  destruct links as [|c links]; [discriminate|].
  apply startswith_inv in H as [rest ->]. reflexivity.
Qed.

Lemma https_not_http l : startswith "https://" l = true -> startswith "http://" l = false.
Proof. intros H. apply startswith_inv in H as [rest ->]. reflexivity. Qed.

Lemma main_in_http r :
  In "link:http" (tags (MainRules.rule_firings r)) <-> MainRules.http_link r = true.
Proof.
  set (q := String.eqb "link:http").
  unfold MainRules.rule_firings. rewrite !tags_app, !in_app_iff. split.
  - intros [H | [H | H]].
    + exfalso. revert H. apply (not_in_rejected q); [reflexivity|].
      apply main_keyword_tags_Forall; reflexivity.
    + unfold MainRules.link_firings in H. destruct (links_present _); [|destruct H].
      rewrite !tags_app, !in_app_iff in H. destruct H as [H | [H | [H | H]]].
      * now apply in_tags_fires in H as [-> _].
      * apply in_tags_fires in H as [_ H]. discriminate.
      * exfalso. revert H. apply (not_in_rejected q); [reflexivity|].
        apply main_brand_tags_Forall; reflexivity.
      * apply in_tags_fires in H as [_ H]. discriminate.
    + exfalso. revert H. apply (not_in_rejected q); [reflexivity|].
      apply main_attachment_tags_Forall; reflexivity.
  - intros H. right. left. unfold MainRules.link_firings.
    rewrite (http_link_present _ H), H. now left.
Qed.

Lemma web_in_http r :
  In "HTTP link (not HTTPS)" (tags (WebRules.rule_firings r)) <-> WebRules.http_link r = true.
Proof.
  set (q := String.eqb "HTTP link (not HTTPS)").
  unfold WebRules.rule_firings. rewrite !tags_app, !in_app_iff. split.
  - intros [H | [H | [H | H]]].
    + exfalso. revert H. apply (not_in_rejected q); [reflexivity|].
      apply web_keyword_tags_Forall; reflexivity.
    + apply in_tags_fires in H as [_ H]. discriminate.
    + unfold WebRules.link_firings in H. destruct (links_present _); [|destruct H].
      rewrite !tags_app, !in_app_iff in H. destruct H as [H | [H | H]].
      * now apply in_tags_fires in H as [-> _].
      * apply in_tags_fires in H as [_ H]. discriminate.
      * exfalso. revert H. apply (not_in_rejected q); [reflexivity|].
        apply web_brand_tags_Forall; reflexivity.
    + apply in_tags_fires in H as [_ H]. discriminate.
  - intros H. right. right. left. unfold WebRules.link_firings.
    rewrite (http_link_present _ H), H. now left.
Qed.

End PlainHttp.

(** X12. In both profiles the plain-HTTP reason is given exactly when the
    trimmed links field starts with [http://] in any letter case (the test
    for an empty or "none" field never stands in its way), so never to a link
    that starts with [https://]. *)
Theorem plain_http_rule_by_prefix (r : row) :
  (exists s rs, fst (Main.score_email r) = Return (s, rs)
     /\ (In "link:http" rs
         <-> PyStr.startswith "http://" (PyStr.lower (PyStr.strip (field r "links"))) = true)
     /\ (PyStr.startswith "https://" (PyStr.lower (PyStr.strip (field r "links"))) = true ->
         ~ In "link:http" rs))
  /\ (exists s rs, fst (Web.score_email r) = Return (s, rs)
     /\ (In "HTTP link (not HTTPS)" rs
         <-> PyStr.startswith "http://" (PyStr.lower (PyStr.strip (field r "links"))) = true)
     /\ (PyStr.startswith "https://" (PyStr.lower (PyStr.strip (field r "links"))) = true ->
         ~ In "HTTP link (not HTTPS)" rs)).
Proof.
  split.
  - rewrite main_score_email_eq. do 2 eexists. split; [reflexivity|].
    split; [apply main_in_http|].
    intros Hs Hin. apply main_in_http in Hin. apply https_not_http in Hs.
    unfold MainRules.http_link, links_of in Hin. congruence.
  - rewrite web_score_email_eq. do 2 eexists. split; [reflexivity|].
    split; [apply web_in_http|].
    intros Hs Hin. apply web_in_http in Hin. apply https_not_http in Hs.
    unfold WebRules.http_link, links_of in Hin. congruence.
Qed.

(** X12 at a secure link written in capitals. *)
Lemma plain_http_rule_example :
  exists s rs, fst (Main.score_email (row_of [("links", " HTTPS://Example.org ")]))
               = Return (s, rs)
               /\ ~ In "link:http" rs.
Proof.
  destruct (proj1 (plain_http_rule_by_prefix (row_of [("links", " HTTPS://Example.org ")])))
    as (s & rs & E & _ & H).
  exists s, rs. split; [exact E|]. apply H. vm_compute. reflexivity.
Defined.

(** ** The sender's domain in [web.py] *)

Section WebSender.
Import PyStr.

Lemma last_split_app sep a b :
  List.last (split sep (a +:+ String sep b)) "" = List.last (split sep b) "".
Proof.
  induction a as [|c a IH].
  - simpl. rewrite Ascii.eqb_refl.
    pose proof (split_nonempty sep b). now destruct (split sep b).
  - change (split sep (String c a +:+ String sep b))
      with (if Ascii.eqb c sep then "" :: split sep (a +:+ String sep b)
            else match split sep (a +:+ String sep b) with
                 | [] => [String c ""]
                 | w :: ws => String c w :: ws
                 end).
    pose proof (split_nonempty sep (a +:+ String sep b)) as Hne.
    destruct (Ascii.eqb c sep).
    + destruct (split sep (a +:+ String sep b)) as [|w ws] eqn:E; [congruence|].
      exact IH.
    + destruct (split sep (a +:+ String sep b)) as [|w ws] eqn:E; [congruence|].
      destruct ws as [|w' ws]; [|exact IH].
      (* one part only: impossible, the text holds the separator *)
      exfalso.
      assert (Hc : has_char sep (a +:+ String sep b) = true).
      { rewrite <- contains_char_has_char. apply contains_iff. now exists a, b. }
      assert (Hlen : forall s, has_char sep s = true -> (2 <= List.length (split sep s))%nat).
      { clear. unfold has_char. induction s as [|x s IHs]; simpl; [discriminate|].
        destruct (Ascii.eqb x sep); simpl.
        - intros _. pose proof (split_nonempty sep s). destruct (split sep s); simpl; [congruence | lia].
        - intros H. specialize (IHs H). destruct (split sep s); simpl in *; lia. }
      specialize (Hlen _ Hc). rewrite E in Hlen. simpl in Hlen. lia.
Qed.

(** The text after the last [@]. *)
Lemma web_email_domain_after_last pre post :
  has_char "@" post = false ->
  WebRules.email_domain (pre +:+ "@" +:+ post) = post.
Proof.
  intros Hpost. unfold WebRules.email_domain.
  assert (Hc : contains "@" (pre +:+ "@" +:+ post) = true)
    by (apply contains_iff; now exists pre, post).
  rewrite Hc.
  change (pre +:+ "@" +:+ post) with (pre +:+ String "@" post).
  now rewrite last_split_app, (split_no_sep "@" post Hpost).
Qed.

End WebSender.

(** X13. The domain [web.py] compares a link with is the text after the last
    [@] of the lower-cased sender, as it stands: it is not trimmed, while
    [main.py] trims the text after the first [@].  For a sender with one
    [@] the two agree up to that trimming. *)
Theorem web_sender_domain_after_last_at (pre post : string) :
  PyStr.has_char "@" post = false ->
  WebRules.email_domain (pre +:+ "@" +:+ post) = post
  /\ (PyStr.has_char "@" pre = false ->
      Main.domain_from_email (pre +:+ "@" +:+ post) = Return (PyStr.strip (PyStr.lower post))).
Proof.
  intros Hpost. split; [now apply web_email_domain_after_last|].
  intros Hpre. rewrite domain_from_email_eq. unfold MainRules.email_domain.
  assert (Hc : PyStr.contains "@" (pre +:+ "@" +:+ post) = true)
    by (apply contains_iff; now exists pre, post).
  rewrite Hc.
  change (pre +:+ "@" +:+ post) with (pre +:+ String "@" post).
  now rewrite (partition_app "@" pre post Hpre).
Qed.

(** X13 at a display name with an address in angle brackets. *)
Lemma web_sender_domain_example :
  WebRules.email_domain "support@paypal.com <alerts@evil.example> "
  = "evil.example> ".
Proof.
  apply (web_sender_domain_after_last_at "support@paypal.com <alerts" "evil.example> ").
  reflexivity.
Defined.

(** ** What [main] and [index] show *)

Section Display.

Lemma firstn_sorted {A} (R : A -> A -> Prop) (n : nat) (l : list A) :
  StronglySorted R l -> StronglySorted R (firstn n l).
Proof.
  intros H. revert n. induction H as [|x l Hl IH Hx]; intros [|n]; simpl; try constructor.
  - apply IH.
  - now apply Forall_take.
Qed.

(** In a sorted list the first [n] entries stand before all the others. *)
Lemma sorted_rest_below {A} (R : A -> A -> Prop) (n : nat) (l : list A) :
  StronglySorted R l -> Forall (fun a => Forall (R a) (skipn n l)) (firstn n l).
Proof.
  intros H. revert n. induction H as [|x l Hl IH Hx]; intros [|n]; simpl; try constructor.
  - now apply Forall_drop.
  - apply IH.
Qed.

(** The values [main] computes from an input file it has read. *)
Lemma main_saved (lines : list (list string)) (T : Z) :
  let rows := Csv.DictReader lines in
  exists o, Cli.main (Some lines) T = Some (Cli.Saved o)
    /\ Cli.printed o = List.map Cli.scored_of (main_printed Cli.score_of rows T)
    /\ Cli.report o = List.map Cli.line_of (sort_desc Cli.score_of rows)
    /\ Cli.showing o = List.length (main_filtered Cli.score_of rows T).
Proof.
  intros rows. unfold Cli.main. fold rows.
  rewrite (mapM_option_total Cli.score_row Cli.scored_of rows score_row_eq).
  cbn [mbind option_bind]. rewrite keyed_scored_of. cbn [mbind option_bind].
  rewrite (sort_desc_map fst (fun r => (Cli.score_of r, Cli.scored_of r)) rows).
  cbn [fst]. fold (sort_desc Cli.score_of rows).
  rewrite List.map_map. cbn [snd].
  change (List.map (fun x => Cli.scored_of x) (sort_desc (fun a => Cli.score_of a) rows))
    with (List.map Cli.scored_of (sort_desc Cli.score_of rows)).
  rewrite keyed_scored_of. cbn [mbind option_bind].
  rewrite (at_least_map fst (fun r => (Cli.score_of r, Cli.scored_of r))).
  cbn [fst]. rewrite List.map_map. cbn [snd].
  rewrite (mapM_option_map Cli.report_row Cli.scored_of Cli.line_of _ report_row_scored_of).
  cbn [mbind option_bind]. eexists. split; [reflexivity|].
  cbn [Cli.report Cli.showing Cli.printed].
  change (at_least (fun a => Cli.score_of a) T (sort_desc Cli.score_of rows))
    with (main_filtered Cli.score_of rows T).
  change (List.map (fun x => Cli.scored_of x) (main_filtered Cli.score_of rows T))
    with (List.map Cli.scored_of (main_filtered Cli.score_of rows T)).
  split; [unfold main_printed; apply firstn_map|].
  split; [reflexivity | apply length_map].
Qed.

(** The list [index] hands to its template for an input file it has read. *)
Lemma index_results (lines : list (list string)) (T : Z) :
  Site.results (Site.index (Some lines) T)
  = List.map Site.out_of (web_scored Site.score_of (Csv.DictReader lines) T).
Proof.
  unfold Site.index, Site.load_emails.
  rewrite (mapM_outcome_total _ _ (Csv.DictReader lines) (score_entry_eq T)).
  rewrite concat_entries.
  rewrite (sort_desc_map Site.score Site.out_of).
  reflexivity.
Qed.

End Display.

(** C7, as the code has it.  For every input file and threshold [T]:
    the list [index] renders holds exactly the records that score at least
    [T], in descending order of score, records of equal score in file order,
    and in the relative order of the full sorted list.  [main] computes the
    same list as [filtered] and reports its length, but what it prints is
    [filtered[:10]]: the first ten records of [filtered], all of them only
    when ten at most score [T] or more, and none of those left out scores
    more than one that is printed.  The report [main] writes is not filtered:
    it holds every record, in descending order of score, records of equal
    score in file order. *)
Theorem displayed_records_by_program (lines : list (list string)) (T : Z) :
  let rows := Csv.DictReader lines in
  (let shown := web_scored Site.score_of rows T in
   Site.results (Site.index (Some lines) T) = List.map Site.out_of shown
   /\ (forall r, In r shown <-> In r rows /\ T <= Site.score_of r)
   /\ StronglySorted (fun a b => Site.score_of b <= Site.score_of a) shown
   /\ (forall k, scoring Site.score_of k shown
                 = if T <=? k then scoring Site.score_of k rows else [])
   /\ shown `sublist_of` sort_desc Site.score_of rows)
  /\ (let ranked := sort_desc Cli.score_of rows in
      let filtered := main_filtered Cli.score_of rows T in
      let shown := main_printed Cli.score_of rows T in
      exists o, Cli.main (Some lines) T = Some (Cli.Saved o)
        /\ Cli.printed o = List.map Cli.scored_of shown
        /\ Cli.report o = List.map Cli.line_of ranked
        /\ Cli.showing o = List.length filtered
        /\ (forall r, In r filtered <-> In r rows /\ T <= Cli.score_of r)
        /\ StronglySorted (fun a b => Cli.score_of b <= Cli.score_of a) filtered
        /\ (forall k, scoring Cli.score_of k filtered
                      = if T <=? k then scoring Cli.score_of k rows else [])
        /\ filtered `sublist_of` ranked
        /\ (shown ++ skipn 10 filtered)%list = filtered
        /\ List.length shown = Nat.min 10 (List.length filtered)
        /\ ((List.length filtered <= 10)%nat -> shown = filtered)
        /\ Forall (fun a => Forall (fun b => Cli.score_of b <= Cli.score_of a)
                                   (skipn 10 filtered)) shown
        /\ StronglySorted (fun a b => Cli.score_of b <= Cli.score_of a) shown
        /\ Permutation ranked rows
        /\ StronglySorted (fun a b => Cli.score_of b <= Cli.score_of a) ranked
        /\ (forall k, scoring Cli.score_of k ranked = scoring Cli.score_of k rows)).
Proof.
  intros rows. split.
  - intros shown.
    destruct (filtered_sorted_stable Site.score_of rows T)
      as (Eq & Hin & _ & Hsorted & Hstable & Hsub & _).
    cbv zeta in Eq, Hin, Hsorted, Hstable, Hsub. fold shown in Eq. rewrite <- Eq in *.
    split; [apply index_results|].
    split; [exact Hin|]. split; [exact Hsorted|]. split; [exact Hstable | exact Hsub].
  - intros ranked filtered shown.
    destruct (main_saved lines T) as (o & Emain & Eprinted & Ereport & Eshowing).
    destruct (filtered_sorted_stable Cli.score_of rows T)
      as (_ & Hin & _ & Hsorted & Hstable & Hsub & Hperm & Hranked & Hrstable).
    cbv zeta in Hin, Hsorted, Hstable, Hsub, Hperm, Hranked, Hrstable.
    fold rows in Emain, Eprinted, Ereport, Eshowing.
    fold filtered in Hin, Hsorted, Hstable, Hsub. fold ranked in Hsub, Hperm, Hranked, Hrstable.
    exists o.
    split; [exact Emain|]. split; [exact Eprinted|]. split; [exact Ereport|].
    split; [exact Eshowing|].
    split; [exact Hin|]. split; [exact Hsorted|]. split; [exact Hstable|].
    split; [exact Hsub|].
    unfold shown, main_printed. fold filtered.
    split; [apply firstn_skipn|].
    split; [apply length_take|].
    split; [intros Hle; now apply firstn_all2|].
    split; [now apply sorted_rest_below|].
    split; [now apply firstn_sorted|].
    split; [exact Hperm|]. split; [exact Hranked | exact Hrstable].
Qed.

(** C7 as it was worded fails in [main.py].  In this file eleven records
    score 2 and the last scores 0.  With the threshold 1, [index] lists the
    eleven and [main] counts them, but it prints ten: record 11 scores
    at least 1 and is not shown.  The report holds all twelve records, the
    one below the threshold too. *)
Lemma main_prints_ten_of_eleven :
  let lines := [["id"; "subject"];
                ["1"; "verify"]; ["2"; "verify"]; ["3"; "verify"]; ["4"; "verify"];
                ["5"; "verify"]; ["6"; "verify"]; ["7"; "verify"]; ["8"; "verify"];
                ["9"; "verify"]; ["10"; "verify"]; ["11"; "verify"]; ["12"; "hello"]] in
  let ids := List.map (fun r => Cli.get r "id") in
  let cell := fun s => Cli.PyCell (PyString s) in
  List.map Cli.score_of (Csv.DictReader lines) = [2; 2; 2; 2; 2; 2; 2; 2; 2; 2; 2; 0]
  /\ (exists o, Cli.main (Some lines) 1 = Some (Cli.Saved o)
      /\ Cli.showing o = 11%nat
      /\ ids (Cli.printed o)
         = List.map cell ["1"; "2"; "3"; "4"; "5"; "6"; "7"; "8"; "9"; "10"]
      /\ ids (Cli.report o)
         = List.map cell ["1"; "2"; "3"; "4"; "5"; "6"; "7"; "8"; "9"; "10"; "11"; "12"])
  /\ List.map Site.id (Site.results (Site.index (Some lines) 1))
     = List.map PyString ["1"; "2"; "3"; "4"; "5"; "6"; "7"; "8"; "9"; "10"; "11"].
Proof.
  cbv zeta. split; [vm_compute; reflexivity|]. split; [|vm_compute; reflexivity].
  match goal with
  | |- exists o, ?run = _ /\ _ =>
      exists (match run with Some (Cli.Saved o) => o | _ => Cli.Build_output 0 0 [] [] end)
  end.
  repeat split; vm_compute; reflexivity.
Qed.
